(** * Token service (api.py): a shallow embedding and its properties

    The service keeps one SQLite table [tokens] and answers five HTTP
    requests.  The embedding follows the handlers of [api.py] one by one:

    - a Python [str] is a [string] (its UTF-8 bytes);
    - a timestamp ([time.time()], the REAL column [expires_at]) is a
      rational [Q]: the handlers only compare timestamps, add a whole number
      of seconds to one and truncate a difference with [int];
    - the table is the list of its rows in insertion order; [SELECT],
      [UPDATE] and [INSERT] are the three statements the handlers issue;
    - a handler takes the table and gives back what it returns or raises
      together with the table it leaves behind;
    - what a request reads from outside (the clock, the entropy source, the
      process environment) is gathered in a [world]. *)

From Stdlib Require Import String Ascii List ZArith QArith Qminmax Qround Bool Lia.
From Stdlib.Strings Require Import Byte.
Import ListNotations.

Open Scope string_scope.
Open Scope Z_scope.

(** ** Python built-ins used by the handlers *)

Module Py.

(** [str.lower] and [str.upper] on the ASCII letters.  A character outside
    ASCII is left as it is; no key of the plan table contains one, and the
    only letters Python folds into ASCII ([U+212A] to [k], [U+0130] to [i]
    followed by [U+0307]) do not produce a key either. *)
Definition lower_ascii (c : ascii) : ascii :=
  let n := nat_of_ascii c in
  if (Nat.leb 65 n && Nat.leb n 90)%bool then ascii_of_nat (n + 32) else c.

Definition upper_ascii (c : ascii) : ascii :=
  let n := nat_of_ascii c in
  if (Nat.leb 97 n && Nat.leb n 122)%bool then ascii_of_nat (n - 32) else c.

Fixpoint str_map (f : ascii -> ascii) (s : string) : string :=
  match s with
  | EmptyString => EmptyString
  | String c s' => String (f c) (str_map f s')
  end.

Definition lower (s : string) : string := str_map lower_ascii s.
Definition upper (s : string) : string := str_map upper_ascii s.

(** [sep.join(xs)] *)
Definition join (sep : string) (xs : list string) : string :=
  String.concat sep xs.

(** [binascii.hexlify]: two lower-case digits per byte, high nibble first. *)
Definition hex_digit (n : N) : ascii :=
  match String.get (N.to_nat n) "0123456789abcdef" with
  | Some c => c
  | None => "0"%char
  end.

Fixpoint hexlify (bs : list byte) : string :=
  match bs with
  | [] => EmptyString
  | b :: bs' =>
      String (hex_digit (N.div (Byte.to_N b) 16))
        (String (hex_digit (N.modulo (Byte.to_N b) 16)) (hexlify bs'))
  end.

(** Truth value of an [int] and of an optional [float] in an [if]. *)
Definition truthy_int (z : Z) : bool := negb (z =? 0).

Definition truthy_float (x : option Q) : bool :=
  match x with
  | None => false
  | Some q => negb (Qeq_bool q 0)
  end.

(** [a > b] on floats. *)
Definition float_gt (a b : Q) : bool := negb (Qle_bool a b).

(** [int(x)]: truncation towards zero. *)
Definition int (x : Q) : Z := Z.quot (Qnum x) (Zpos (Qden x)).

(** A [dict] with string keys, in insertion order. *)
Definition dict (V : Type) : Type := list (string * V).

Fixpoint dict_get {V} (d : dict V) (k : string) : option V :=
  match d with
  | [] => None
  | (k', v) :: d' => if String.eqb k' k then Some v else dict_get d' k
  end.

Definition dict_in {V} (k : string) (d : dict V) : bool :=
  match dict_get d k with Some _ => true | None => false end.

Definition dict_keys {V} (d : dict V) : list string := map fst d.

(** What a call gives back: a value, or a raised exception. *)
Inductive exn : Type :=
| HTTPException (status_code : Z) (detail : string)
| IntegrityError.

Inductive outcome (A : Type) : Type :=
| Return (a : A)
| Raise (e : exn).

Arguments Return {A} a.
Arguments Raise {A} e.

End Py.

Import Py.

(** ** The [tokens] table *)

Record row : Type := mkRow {
  token : string;           (* TEXT PRIMARY KEY *)
  hwid : option string;     (* TEXT *)
  expires_at : option Q;    (* REAL *)
  revoked : Z               (* INTEGER DEFAULT 0 *)
}.

Definition table : Type := list row.

(** The PRIMARY KEY constraint the table is created with. *)
Definition primary_key (db : table) : Prop := NoDup (map token db).

Module Sql.

(** [SELECT expires_at, hwid, revoked FROM tokens WHERE token = ?]
    followed by [fetchone()]. *)
Definition select_row (tok : string) (db : table)
  : option (option Q * option string * Z) :=
  match find (fun r => String.eqb (token r) tok) db with
  | Some r => Some (expires_at r, hwid r, revoked r)
  | None => None
  end.

(** [UPDATE tokens SET hwid = ? WHERE token = ?] *)
Definition update_hwid (v : option string) (tok : string) (db : table) : table :=
  map (fun r =>
         if String.eqb (token r) tok
         then mkRow (token r) v (expires_at r) (revoked r)
         else r) db.

(** [UPDATE tokens SET revoked = 1 WHERE token = ?] *)
Definition update_revoked (tok : string) (db : table) : table :=
  map (fun r =>
         if String.eqb (token r) tok
         then mkRow (token r) (hwid r) (expires_at r) 1
         else r) db.

(** [INSERT INTO tokens (token, expires_at, revoked) VALUES (?, ?, 0)];
    [None] when the key is already present (SQLite refuses the row). *)
Definition insert_token (tok : string) (e : option Q) (db : table) : option table :=
  if existsb (fun r => String.eqb (token r) tok) db
  then None
  else Some (db ++ [mkRow tok None e 0])%list.

End Sql.

Import Sql.

(** ** Module-level state and the outside world *)

Record module_globals : Type := mkGlobals {
  DB : string;
  ADMIN_KEY : string
}.

Record world : Type := mkWorld {
  os_environ : string -> option string;   (* os.environ *)
  time_time : Q;                          (* time.time() *)
  secrets_token_bytes : nat -> list byte  (* secrets.token_bytes(n) *)
}.

(** [os.getenv(key, default)] *)
Definition os_getenv (environ : string -> option string) (key default : string)
  : string :=
  match environ key with
  | Some v => v
  | None => default
  end.

(** The assignments executed when the module is imported. *)
Definition import_module (environ : string -> option string) : module_globals :=
  {| DB := "/data/tokens.db";
     ADMIN_KEY := os_getenv environ "ADMIN_KEY" "olly6969" |}.

Definition PLAN_DURATIONS : dict (option Z) :=
  [ ("1d", Some (1 * 86400));
    ("3d", Some (3 * 86400));
    ("1w", Some (7 * 86400));
    ("2w", Some (14 * 86400));
    ("3w", Some (21 * 86400));
    ("6w", Some (42 * 86400));
    ("1m", Some (30 * 86400));
    ("2m", Some (60 * 86400));
    ("3m", Some (90 * 86400));
    ("6m", Some (180 * 86400));
    ("9m", Some (270 * 86400));
    ("1y", Some (365 * 86400));
    ("2y", Some (730 * 86400));
    ("infinite", None) ].

(** ** Requests and responses *)

Record VerifyRequest : Type := mkVerifyRequest {
  vr_token : string;
  vr_hwid : string
}.

Record GenerateRequest : Type := mkGenerateRequest {
  gr_plan : string
}.

(** The JSON objects the handlers return. *)
Inductive response : Type :=
| StatusResponse (status : string)
| GenerateResponse (tok plan : string) (expires : option Q)
| InspectResponse (tok : string) (bound : option string) (is_revoked : bool)
    (expires : option Q) (seconds_remaining : option Z).

Definition reply : Type := (outcome response * table)%type.

(** ** The handlers *)

(** [require_admin]: the header is [None] when the request carries no
    [X-Admin-Key]. *)
Definition option_string_eqb (a b : option string) : bool :=
  match a, b with
  | Some x, Some y => String.eqb x y
  | None, None => true
  | _, _ => false
  end.

Definition require_admin (g : module_globals) (w : world)
    (x_admin_key : option string) : outcome unit :=
  if negb (option_string_eqb x_admin_key (os_environ w "ADMIN_KEY"))
  then Raise (HTTPException 401 "Unauthorized")
  else Return tt.

(** The guard of line 96: [expires_at and time.time() > expires_at]. *)
Definition expiry_check (now : Q) (e : option Q) : bool :=
  match e with
  | None => false
  | Some t => truthy_float (Some t) && float_gt now t
  end.

(** [POST /verify] *)
Definition verify (w : world) (data : VerifyRequest) (db : table) : reply :=
  match select_row (vr_token data) db with
  | None => (Raise (HTTPException 401 "Invalid token"), db)
  | Some (e, bound_hwid, rv) =>
      if truthy_int rv then
        (Raise (HTTPException 403 "Token revoked"), db)
      else if expiry_check (time_time w) e then
        (Raise (HTTPException 403 "Token expired"), db)
      else
        match bound_hwid with
        | None =>
            (Return (StatusResponse "ok"),
             update_hwid (Some (vr_hwid data)) (vr_token data) db)
        | Some h =>
            if negb (String.eqb h (vr_hwid data)) then
              (Raise (HTTPException 403 "HWID mismatch"), db)
            else
              (Return (StatusResponse "ok"), db)
        end
  end.

(** [POST /generate] *)
Definition invalid_plan_detail : string :=
  "Invalid plan. Valid plans: " ++ join ", " (dict_keys PLAN_DURATIONS).

Definition new_token (w : world) : string :=
  "OLLY-" ++ upper (hexlify (secrets_token_bytes w 12)).

Definition generate (w : world) (data : GenerateRequest) (db : table) : reply :=
  let plan := lower (gr_plan data) in
  match dict_get PLAN_DURATIONS plan with
  | None => (Raise (HTTPException 400 invalid_plan_detail), db)
  | Some duration =>
      let tok := new_token w in
      let e :=
        match duration with
        | None => None
        | Some d => Some (time_time w + inject_Z d)%Q
        end in
      match insert_token tok e db with
      | None => (Raise IntegrityError, db)
      | Some db' => (Return (GenerateResponse tok plan e), db')
      end
  end.

(** [POST /admin/verify]; [tok] is [data["token"]]. *)
Definition admin_verify (g : module_globals) (w : world)
    (x_admin_key : option string) (tok : string) (db : table) : reply :=
  match require_admin g w x_admin_key with
  | Raise e => (Raise e, db)
  | Return _ =>
      match select_row tok db with
      | None => (Raise (HTTPException 404 "Token not found"), db)
      | Some (e, h, rv) =>
          let seconds_remaining :=
            match e with
            | Some t =>
                if truthy_float (Some t)
                then Some (Z.max 0 (int (t - time_time w)%Q))
                else None
            | None => None
            end in
          (Return (InspectResponse tok h (truthy_int rv) e seconds_remaining), db)
      end
  end.

(** [POST /admin/unbind] *)
Definition admin_unbind (g : module_globals) (w : world)
    (x_admin_key : option string) (tok : string) (db : table) : reply :=
  match require_admin g w x_admin_key with
  | Raise e => (Raise e, db)
  | Return _ => (Return (StatusResponse "ok"), update_hwid None tok db)
  end.

(** [POST /admin/revoke] *)
Definition admin_revoke (g : module_globals) (w : world)
    (x_admin_key : option string) (tok : string) (db : table) : reply :=
  match require_admin g w x_admin_key with
  | Raise e => (Raise e, db)
  | Return _ => (Return (StatusResponse "revoked"), update_revoked tok db)
  end.

(** ** Sequences of requests *)

Inductive request : Type :=
| PostVerify (data : VerifyRequest)
| PostGenerate (data : GenerateRequest)
| PostAdminVerify (x_admin_key : option string) (tok : string)
| PostAdminUnbind (x_admin_key : option string) (tok : string)
| PostAdminRevoke (x_admin_key : option string) (tok : string).

Definition handle (g : module_globals) (w : world) (rq : request) (db : table)
  : reply :=
  match rq with
  | PostVerify data => verify w data db
  | PostGenerate data => generate w data db
  | PostAdminVerify k tok => admin_verify g w k tok db
  | PostAdminUnbind k tok => admin_unbind g w k tok db
  | PostAdminRevoke k tok => admin_revoke g w k tok db
  end.

(** The table after a sequence of requests, each served in its own world. *)
Fixpoint run (g : module_globals) (evs : list (world * request)) (db : table)
  : table :=
  match evs with
  | [] => db
  | (w, rq) :: evs' => run g evs' (snd (handle g w rq db))
  end.

(** ** Terms in which the properties are stated *)

Inductive check : Type :=
| CheckExists | CheckRevoked | CheckExpired | CheckHwid.

(** What each check of [verify] raises when taken on its own: it looks at the
    selected row (if any) and at nothing that another check decided. *)
Definition check_raises (w : world) (data : VerifyRequest) (db : table)
    (c : check) : option exn :=
  match c, select_row (vr_token data) db with
  | CheckExists, None => Some (HTTPException 401 "Invalid token")
  | CheckRevoked, Some (_, _, rv) =>
      if truthy_int rv then Some (HTTPException 403 "Token revoked") else None
  | CheckExpired, Some (e, _, _) =>
      if expiry_check (time_time w) e
      then Some (HTTPException 403 "Token expired") else None
  | CheckHwid, Some (_, Some h, _) =>
      if negb (String.eqb h (vr_hwid data))
      then Some (HTTPException 403 "HWID mismatch") else None
  | _, _ => None
  end.

(** The ordering policy in the spec's words: the checks are tried in the
    given order and the first one that fails gives the error. *)
Fixpoint first_failure (w : world) (data : VerifyRequest) (db : table)
    (cs : list check) : option exn :=
  match cs with
  | [] => None
  | c :: cs' =>
      match check_raises w data db c with
      | Some x => Some x
      | None => first_failure w data db cs'
      end
  end.

Definition verify_order : list check :=
  [CheckExists; CheckRevoked; CheckExpired; CheckHwid].

Fixpoint str_forallb (p : ascii -> bool) (s : string) : bool :=
  match s with
  | EmptyString => true
  | String c s' => p c && str_forallb p s'
  end.

(** One of [0-9A-F]. *)
Definition upper_hex_char (c : ascii) : bool :=
  existsb (Ascii.eqb c) (list_ascii_of_string "0123456789ABCDEF").

(** The expiry [generate] stores for a plan of the given duration. *)
Definition expiry_of (now : Q) (duration : option Z) : option Q :=
  match duration with
  | None => None
  | Some d => Some (now + inject_Z d)%Q
  end.

(** [key in s] for every key of the table, as positions in the message. *)
Definition occurs_in (k s : string) : Prop :=
  exists n, String.index 0 k s = Some n.

(** What one request may do to a stored row: the row stays where it is,
    keeps its token and its expiry, and stays revoked if it was. *)
Definition row_kept (r r' : row) : Prop :=
  token r' = token r
  /\ expires_at r' = expires_at r
  /\ (truthy_int (revoked r) = true -> truthy_int (revoked r') = true).

(** The two ways a request changes the hwid of a stored row. *)
Definition bound_by_verify (w : world) (rq : request) (r r' : row) : Prop :=
  exists data,
    rq = PostVerify data
    /\ token r = vr_token data
    /\ hwid r = None
    /\ hwid r' = Some (vr_hwid data)
    /\ truthy_int (revoked r) = false
    /\ expiry_check (time_time w) (expires_at r) = false.

Definition cleared_by_unbind (g : module_globals) (w : world) (rq : request)
    (r r' : row) : Prop :=
  exists k,
    rq = PostAdminUnbind k (token r)
    /\ require_admin g w k = Return tt
    /\ hwid r' = None.

(** A timestamp that is not "set and strictly in the past". *)
Definition not_past (now : Q) (e : option Q) : Prop :=
  forall t, e = Some t -> (now <= t)%Q.

(** Every expiry stored in the table is a time after the epoch, as are the
    expiries [generate] computes from a clock that is. *)
Definition stamped (db : table) : Prop :=
  forall r t, In r db -> expires_at r = Some t -> (0 < t)%Q.

Definition after_epoch (evs : list (world * request)) : Prop :=
  Forall (fun ev => (0 <= time_time (fst ev))%Q) evs.

(** ** Start-up *)

(** The database file: [None] while it holds no [tokens] table. *)
Definition database : Type := option table.

(** [init_db], its SQL statement: [CREATE TABLE IF NOT EXISTS tokens (...)].
    It gives the table the handlers will find.  (The directory of the file
    is created first; directories are not part of this model.) *)
Definition init_db (d : database) : table :=
  match d with
  | None => []
  | Some t => t
  end.

(** [lifespan]: [init_db()] runs before the first request is served; what is
    on disk at shutdown is the table the requests left. *)
Definition lifespan (g : module_globals) (d : database)
    (evs : list (world * request)) : database :=
  Some (run g evs (init_db d)).

(** The token a request names in its WHERE clause, if it has one. *)
Definition request_token (rq : request) : option string :=
  match rq with
  | PostVerify data => Some (vr_token data)
  | PostGenerate _ => None
  | PostAdminVerify _ tok => Some tok
  | PostAdminUnbind _ tok => Some tok
  | PostAdminRevoke _ tok => Some tok
  end.

(** The token a response announces as newly created, if any. *)
Definition created_token (o : outcome response) : list string :=
  match o with
  | Return (GenerateResponse tok _ _) => [tok]
  | _ => []
  end.

(** The value of a digit of [0-9A-F]. *)
Definition hex_value (c : ascii) : option N :=
  let n := N_of_ascii c in
  if (48 <=? n)%N && (n <=? 57)%N then Some (n - 48)%N
  else if (65 <=? n)%N && (n <=? 70)%N then Some (n - 55)%N
  else None.

(** Reading bytes back from upper-case hexadecimal digits. *)
Fixpoint unhexlify (s : string) : option (list byte) :=
  match s with
  | EmptyString => Some []
  | String hi (String lo s') =>
      match hex_value hi, hex_value lo, unhexlify s' with
      | Some h, Some l, Some bs =>
          match Byte.of_N (16 * h + l) with
          | Some b => Some (b :: bs)
          | None => None
          end
      | _, _, _ => None
      end
  | String _ EmptyString => None
  end.

(** A row as [generate] writes it and the other handlers leave it. *)
Definition issued_row (r : row) : Prop :=
  (exists hex, token r = "OLLY-" ++ hex
               /\ String.length hex = 24%nat
               /\ str_forallb upper_hex_char hex = true)
  /\ (revoked r = 0 \/ revoked r = 1)
  /\ (forall t, expires_at r = Some t -> (0 < t)%Q).

(** Every request of the sequence is served with a clock after the epoch and
    an entropy source that hands out as many bytes as it is asked for. *)
Definition ordinary (evs : list (world * request)) : Prop :=
  Forall (fun ev => (0 <= time_time (fst ev))%Q
                    /\ List.length (secrets_token_bytes (fst ev) 12) = 12%nat) evs.

(** ** Sample worlds, tokens and request sequences *)

Definition demo_world (now : Q) : world :=
  {| os_environ := fun k => if String.eqb k "ADMIN_KEY" then Some "s3cret" else None;
     time_time := now;
     secrets_token_bytes := fun n => repeat x00 n |}.

Definition demo_globals : module_globals :=
  import_module (os_environ (demo_world 0)).

Definition demo_token : string := "OLLY-0123456789ABCDEF01234567".

(** A process environment in which [ADMIN_KEY] is not set. *)
Definition bare_world (now : Q) : world :=
  {| os_environ := fun _ => None;
     time_time := now;
     secrets_token_bytes := fun n => repeat x00 n |}.

Definition demo_requests : list (world * request) :=
  [ (demo_world 1000, PostGenerate (mkGenerateRequest "1d"));
    (demo_world 1001, PostVerify (mkVerifyRequest demo_token "A"));
    (demo_world 1002, PostAdminRevoke (Some "s3cret") demo_token);
    (demo_world 1003, PostAdminUnbind (Some "s3cret") demo_token) ].

(** ** Facts about the three SQL statements *)

Section SqlFacts.

Variable tok : string.

Lemma select_row_update_hwid (v : option string) (db : table) e h rv :
  select_row tok db = Some (e, h, rv) ->
  select_row tok (update_hwid v tok db) = Some (e, v, rv).
Proof.
  unfold select_row, update_hwid.
  induction db as [|r db IH]; simpl; [discriminate|].
  destruct (String.eqb (token r) tok) eqn:E; simpl.
  - rewrite E. intros H; inversion H; reflexivity.
  - rewrite E. exact IH.
Qed.

Lemma select_row_update_hwid_other (v : option string) (db : table) tok' :
  tok' <> tok ->
  select_row tok' (update_hwid v tok db) = select_row tok' db.
Proof.
  intros Hne. unfold select_row, update_hwid.
  induction db as [|r db IH]; simpl; [reflexivity|].
  destruct (String.eqb (token r) tok) eqn:E; simpl.
  - apply String.eqb_eq in E.
    destruct (String.eqb (token r) tok') eqn:E'.
    + apply String.eqb_eq in E'. congruence.
    + exact IH.
  - destruct (String.eqb (token r) tok'); [reflexivity | exact IH].
Qed.

Lemma select_row_update_revoked (db : table) e h rv :
  select_row tok db = Some (e, h, rv) ->
  select_row tok (update_revoked tok db) = Some (e, h, 1).
Proof.
  unfold select_row, update_revoked.
  induction db as [|r db IH]; simpl; [discriminate|].
  destruct (String.eqb (token r) tok) eqn:E; simpl.
  - rewrite E. intros H; inversion H; reflexivity.
  - rewrite E. exact IH.
Qed.






End SqlFacts.

(** ** Facts about the comparisons on timestamps *)

Lemma float_gt_spec (a b : Q) : float_gt a b = true <-> (b < a)%Q.
Proof.
  unfold float_gt. rewrite negb_true_iff.
  destruct (Qle_bool a b) eqn:E.
  - apply Qle_bool_iff in E. split; [discriminate|].
    intros H. exfalso. exact (Qlt_not_le _ _ H E).
  - split; [intros _|reflexivity].
    apply Qnot_le_lt. intros H. apply Qle_bool_iff in H. congruence.
Qed.

Lemma truthy_float_spec (t : Q) : truthy_float (Some t) = true <-> ~ (t == 0)%Q.
Proof.
  simpl. rewrite negb_true_iff.
  destruct (Qeq_bool t 0) eqn:E.
  - apply Qeq_bool_iff in E. split; [discriminate | tauto].
  - split; [|reflexivity]. intros _ H. apply Qeq_bool_iff in H. congruence.
Qed.

Lemma expiry_check_spec (now : Q) (e : option Q) :
  expiry_check now e = true <->
  exists t, e = Some t /\ ~ (t == 0)%Q /\ (t < now)%Q.
Proof.
  destruct e as [t|]; unfold expiry_check.
  - rewrite andb_true_iff, truthy_float_spec, float_gt_spec. split.
    + intros [H1 H2]. exists t. auto.
    + intros [t' [Ht [H1 H2]]]. inversion Ht; subst. auto.
  - split; [discriminate|]. intros [t [Ht _]]. discriminate.
Qed.

(** A timestamp that is not in the past passes the guard. *)
Lemma not_past_passes (now : Q) (e : option Q) :
  (forall t, e = Some t -> (now <= t)%Q) -> expiry_check now e = false.
Proof.
  intros H. destruct (expiry_check now e) eqn:E; [|reflexivity].
  apply expiry_check_spec in E. destruct E as [t [Ht [_ Hlt]]].
  exfalso. exact (Qlt_not_le _ _ Hlt (H t Ht)).
Qed.

Lemma require_admin_spec (g : module_globals) (w : world) (k : option string) :
  require_admin g w k = Return tt <-> k = os_environ w "ADMIN_KEY".
Proof.
  unfold require_admin.
  destruct k as [x|], (os_environ w "ADMIN_KEY") as [y|]; simpl.
  - destruct (String.eqb x y) eqn:E; simpl.
    + apply String.eqb_eq in E. subst. tauto.
    + apply String.eqb_neq in E. split; [discriminate | congruence].
  - split; discriminate.
  - split; discriminate.
  - tauto.
Qed.

Lemma require_admin_cases (g : module_globals) (w : world) (k : option string) :
  require_admin g w k = Return tt \/
  require_admin g w k = Raise (HTTPException 401 "Unauthorized").
Proof.
  unfold require_admin.
  destruct (negb (option_string_eqb k (os_environ w "ADMIN_KEY"))); auto.
Qed.

(** ** Verify: hardware binding *)

(** C1.  A [/verify] call on a row that exists, is not revoked and whose
    expiry (if any) is not in the past: with no bound hwid the call answers
    ok and the UPDATE stores the supplied hwid on that row, other rows being
    read back as before; with a bound hwid that differs it raises 403
    "HWID mismatch"; with the same hwid it answers ok and the table it leaves
    is the table it found. *)
Theorem verify_hwid_binding (w : world) (data : VerifyRequest) (db : table)
    (e : option Q) (bound : option string) (rv : Z) :
  select_row (vr_token data) db = Some (e, bound, rv) ->
  truthy_int rv = false ->
  (forall t, e = Some t -> (time_time w <= t)%Q) ->
  (bound = None ->
     verify w data db =
       (Return (StatusResponse "ok"),
        update_hwid (Some (vr_hwid data)) (vr_token data) db)
     /\ select_row (vr_token data) (snd (verify w data db))
        = Some (e, Some (vr_hwid data), rv)
     /\ forall tok', tok' <> vr_token data ->
          select_row tok' (snd (verify w data db)) = select_row tok' db)
  /\ (forall h, bound = Some h -> h <> vr_hwid data ->
        verify w data db = (Raise (HTTPException 403 "HWID mismatch"), db))
  /\ (bound = Some (vr_hwid data) ->
        verify w data db = (Return (StatusResponse "ok"), db)).
Proof.
  intros Hsel Hrv Hexp.
  apply not_past_passes in Hexp.
  assert (Hv : verify w data db =
    match bound with
    | None => (Return (StatusResponse "ok"),
               update_hwid (Some (vr_hwid data)) (vr_token data) db)
    | Some h => if negb (String.eqb h (vr_hwid data))
                then (Raise (HTTPException 403 "HWID mismatch"), db)
                else (Return (StatusResponse "ok"), db)
    end).
  { unfold verify. rewrite Hsel, Hrv, Hexp. reflexivity. }
  repeat split.
  - subst bound. exact Hv.
  - subst bound. rewrite Hv. simpl.
    apply select_row_update_hwid with (h := None). exact Hsel.
  - intros tok' Hne. subst bound. rewrite Hv. simpl.
    apply select_row_update_hwid_other. exact Hne.
  - intros h Hb Hne. subst bound. rewrite Hv.
    apply String.eqb_neq in Hne. rewrite Hne. reflexivity.
  - intros Hb. subst bound. rewrite Hv.
    rewrite String.eqb_refl. reflexivity.
Qed.

Lemma verify_hwid_binding_witness :
  verify (demo_world 1000) (mkVerifyRequest demo_token "A")
         [mkRow demo_token None (Some 2000%Q) 0]
  = (Return (StatusResponse "ok"), [mkRow demo_token (Some "A") (Some 2000%Q) 0]).
Proof.
  refine (proj1 (proj1 (verify_hwid_binding (demo_world 1000)
            (mkVerifyRequest demo_token "A")
            [mkRow demo_token None (Some 2000%Q) 0]
            (Some 2000%Q) None 0 eq_refl eq_refl _) eq_refl)).
  intros t Ht. inversion Ht. subst t. vm_compute. discriminate.
Defined.

(** ** Verify: order of the checks *)

(** C2.  What [/verify] answers is the error of the first failing check in
    the order existence, revocation, expiry, hwid (and ok when none fails), and
    an error leaves the table as it was.  So a missing token gives 401
    whatever else holds; a revoked row gives 403 "Token revoked" whatever its
    expiry and hwid are; a row that is not revoked and fails the expiry guard
    gives 403 "Token expired" whatever its hwid is.  The expiry check is the
    guard of [verify] itself, [expiry_check]. *)
Theorem verify_check_order (w : world) (data : VerifyRequest) (db : table) :
  fst (verify w data db) =
    match first_failure w data db verify_order with
    | Some x => Raise x
    | None => Return (StatusResponse "ok")
    end
  /\ (forall x, fst (verify w data db) = Raise x -> snd (verify w data db) = db)
  /\ (select_row (vr_token data) db = None ->
        fst (verify w data db) = Raise (HTTPException 401 "Invalid token"))
  /\ (forall e h rv,
        select_row (vr_token data) db = Some (e, h, rv) ->
        truthy_int rv = true ->
        fst (verify w data db) = Raise (HTTPException 403 "Token revoked"))
  /\ (forall e h rv,
        select_row (vr_token data) db = Some (e, h, rv) ->
        truthy_int rv = false ->
        expiry_check (time_time w) e = true ->
        fst (verify w data db) = Raise (HTTPException 403 "Token expired"))
  /\ (forall e h rv,
        select_row (vr_token data) db = Some (e, Some h, rv) ->
        truthy_int rv = false ->
        expiry_check (time_time w) e = false ->
        h <> vr_hwid data ->
        fst (verify w data db) = Raise (HTTPException 403 "HWID mismatch")).
Proof.
  unfold verify, verify_order, first_failure, check_raises.
  destruct (select_row (vr_token data) db) as [[[e h] rv]|] eqn:Hsel.
  - destruct (truthy_int rv) eqn:Hrv;
      [| destruct (expiry_check (time_time w) e) eqn:Hexp;
         [| destruct h as [h|];
            [destruct (negb (String.eqb h (vr_hwid data))) eqn:Hh|]]];
      simpl; repeat split; try reflexivity; try discriminate;
      intros; try congruence.
    match goal with
    | H : Some _ = Some _ |- _ => inversion H; subst
    end.
    match goal with
    | H : _ <> _ |- _ => apply String.eqb_neq in H; rewrite H in Hh
    end.
    discriminate.
  - simpl. repeat split; try reflexivity; intros; discriminate.
Qed.

Lemma verify_check_order_witness :
  fst (verify (demo_world 3000) (mkVerifyRequest demo_token "B")
         [mkRow demo_token (Some "A") (Some 2000%Q) 0])
  = Raise (HTTPException 403 "Token expired").
Proof.
  exact (proj1 (proj2 (proj2 (proj2 (proj2
           (verify_check_order (demo_world 3000)
              (mkVerifyRequest demo_token "B")
              [mkRow demo_token (Some "A") (Some 2000%Q) 0])))))
           (Some 2000%Q) (Some "A") 0 eq_refl eq_refl eq_refl).
Defined.

(** ** Admin authentication *)

(** C3.  The guard at work when [ADMIN_KEY] is not in the environment: the
    module has taken the fallback secret at import, yet a request without
    the [X-Admin-Key] header passes [require_admin] (and [/admin/revoke]
    then revokes the token), while a request presenting the fallback secret
    is answered 401. *)
Theorem require_admin_env_unset :
  ADMIN_KEY (import_module (os_environ (bare_world 1000))) = "olly6969"
  /\ require_admin (import_module (os_environ (bare_world 1000)))
       (bare_world 1000) None = Return tt
  /\ require_admin (import_module (os_environ (bare_world 1000)))
       (bare_world 1000) (Some "olly6969")
     = Raise (HTTPException 401 "Unauthorized")
  /\ admin_revoke (import_module (os_environ (bare_world 1000)))
       (bare_world 1000) None demo_token [mkRow demo_token None None 0]
     = (Return (StatusResponse "revoked"), [mkRow demo_token None None 1]).
Proof. repeat split. Qed.

(** C4.  With [ADMIN_KEY] absent from the environment at request time, a
    request without the header passes [require_admin], so none of the three
    admin endpoints answers 401 to it; the module-level [ADMIN_KEY] plays no
    part: the guard gives the same answer whatever the module globals hold,
    and presenting the fallback secret itself is refused. *)
Theorem require_admin_ignores_fallback (g : module_globals) (w : world) :
  os_environ w "ADMIN_KEY" = None ->
  require_admin g w None = Return tt
  /\ (forall tok db,
        fst (admin_verify g w None tok db)
          <> Raise (HTTPException 401 "Unauthorized")
        /\ fst (admin_unbind g w None tok db) = Return (StatusResponse "ok")
        /\ fst (admin_revoke g w None tok db) = Return (StatusResponse "revoked"))
  /\ (forall g' k, require_admin g' w k = require_admin g w k)
  /\ ADMIN_KEY (import_module (os_environ w)) = "olly6969"
  /\ require_admin (import_module (os_environ w)) w
       (Some (ADMIN_KEY (import_module (os_environ w))))
     = Raise (HTTPException 401 "Unauthorized").
Proof.
  intros Henv.
  assert (Hnone : forall g0, require_admin g0 w None = Return tt).
  { intros g0. apply require_admin_spec. symmetry. exact Henv. }
  split; [apply Hnone|].
  split.
  { intros tok db. unfold admin_verify, admin_unbind, admin_revoke.
    rewrite Hnone. repeat split.
    destruct (select_row tok db) as [[[e h] rv]|]; simpl; discriminate. }
  split; [reflexivity|].
  unfold import_module, os_getenv, require_admin. simpl.
  rewrite Henv. simpl. auto.
Qed.

Lemma require_admin_ignores_fallback_witness :
  require_admin demo_globals (bare_world 1000) None = Return tt.
Proof.
  exact (proj1 (require_admin_ignores_fallback demo_globals (bare_world 1000)
                  eq_refl)).
Defined.

(** ** Verify: expiry *)

(** On a row that exists and is not revoked, [/verify] raises 403
    "Token expired" exactly when [expires_at] is set, is not 0.0 and is
    strictly before the clock reading. *)
Lemma verify_expired_iff (w : world) (data : VerifyRequest) (db : table) e h rv :
  select_row (vr_token data) db = Some (e, h, rv) ->
  truthy_int rv = false ->
  (fst (verify w data db) = Raise (HTTPException 403 "Token expired") <->
   exists t, e = Some t /\ ~ (t == 0)%Q /\ (t < time_time w)%Q).
Proof.
  intros Hsel Hrv. rewrite <- expiry_check_spec.
  unfold verify. rewrite Hsel, Hrv.
  destruct (expiry_check (time_time w) e).
  - simpl. tauto.
  - split; [|discriminate].
    destruct h as [h|]; [destruct (negb (String.eqb h (vr_hwid data)))|];
      simpl; discriminate.
Qed.

Lemma verify_expired_iff_witness :
  fst (verify (demo_world 3000) (mkVerifyRequest demo_token "A")
         [mkRow demo_token (Some "A") (Some 2000%Q) 0])
  = Raise (HTTPException 403 "Token expired").
Proof.
  apply (proj2 (verify_expired_iff (demo_world 3000)
                  (mkVerifyRequest demo_token "A")
                  [mkRow demo_token (Some "A") (Some 2000%Q) 0]
                  (Some 2000%Q) (Some "A") 0 eq_refl eq_refl)).
  exists 2000%Q. split; [reflexivity|].
  split; vm_compute; [discriminate | reflexivity].
Defined.

(** The one stored value on which the guard of [verify] and "set and in the
    past" differ is the timestamp 0.0: on such a row [/verify] answers ok and
    binds the hwid.  No handler writes that value: [generate] stores null or
    a clock reading plus at least a day, and no UPDATE touches the column. *)
Lemma verify_zero_expiry_passes :
  expires_at (mkRow demo_token None (Some 0%Q) 0) = Some 0%Q
  /\ (0 < time_time (bare_world 1000))%Q
  /\ verify (bare_world 1000) (mkVerifyRequest demo_token "A")
       [mkRow demo_token None (Some 0%Q) 0]
     = (Return (StatusResponse "ok"), [mkRow demo_token (Some "A") (Some 0%Q) 0]).
Proof. repeat split. Qed.

(** ** Generate *)

Lemma upper_hex_byte (b : byte) :
  upper_hex_char (upper_ascii (hex_digit (N.div (Byte.to_N b) 16))) = true
  /\ upper_hex_char (upper_ascii (hex_digit (N.modulo (Byte.to_N b) 16))) = true.
Proof. destruct b; vm_compute; split; reflexivity. Qed.

Lemma upper_hexlify_chars (bs : list byte) :
  str_forallb upper_hex_char (upper (hexlify bs)) = true.
Proof.
  induction bs as [|b bs IH]; [reflexivity|].
  destruct (upper_hex_byte b) as [Hhi Hlo].
  cbn [hexlify upper str_map str_forallb].
  rewrite Hhi, Hlo. exact IH.
Qed.

Lemma upper_hexlify_length (bs : list byte) :
  String.length (upper (hexlify bs)) = (2 * List.length bs)%nat.
Proof.
  induction bs as [|b bs IH]; [reflexivity|].
  cbn [hexlify upper str_map String.length List.length].
  unfold upper in IH. rewrite IH. lia.
Qed.

Lemma select_row_none_existsb (tok : string) (db : table) :
  select_row tok db = None <->
  existsb (fun r => String.eqb (token r) tok) db = false.
Proof.
  unfold select_row. induction db as [|r db IH]; simpl; [tauto|].
  destruct (String.eqb (token r) tok); simpl; [|exact IH].
  split; discriminate.
Qed.

Lemma generate_unfold (w : world) (data : GenerateRequest) (db : table) :
  generate w data db =
    match dict_get PLAN_DURATIONS (lower (gr_plan data)) with
    | None => (Raise (HTTPException 400 invalid_plan_detail), db)
    | Some duration =>
        match insert_token (new_token w) (expiry_of (time_time w) duration) db with
        | None => (Raise IntegrityError, db)
        | Some db' =>
            (Return (GenerateResponse (new_token w) (lower (gr_plan data))
                       (expiry_of (time_time w) duration)), db')
        end
    end.
Proof. reflexivity. Qed.

(** C5, as the claim states it, fails when the entropy source hands back the
    bytes of a token that is already stored: the plan is valid, the INSERT is
    refused, no row is created and the call raises. *)
Lemma generate_collision_raises :
  dict_in (lower "1d") PLAN_DURATIONS = true
  /\ generate (demo_world 1000) (mkGenerateRequest "1d")
       [mkRow "OLLY-000000000000000000000000" None None 0]
     = (Raise IntegrityError, [mkRow "OLLY-000000000000000000000000" None None 0]).
Proof. split; reflexivity. Qed.

(** C5 (amended).  For a valid plan and a drawn token that is not stored yet,
    [/generate] answers with the token, the lower-cased plan name and the
    expiry, and leaves the table with exactly one more row: that token, no
    hwid, revoked 0, and the expiry, which is the clock reading plus the
    plan's duration, or null for a plan without duration.  The token is
    ["OLLY-"] followed by 24 characters of [0-9A-F].  The plan table is the
    fixed one. *)
Theorem generate_creates_token (w : world) (data : GenerateRequest) (db : table)
    (duration : option Z) :
  dict_get PLAN_DURATIONS (lower (gr_plan data)) = Some duration ->
  List.length (secrets_token_bytes w 12) = 12%nat ->
  select_row (new_token w) db = None ->
  (exists hex,
      new_token w = "OLLY-" ++ hex
      /\ String.length hex = 24%nat
      /\ str_forallb upper_hex_char hex = true)
  /\ generate w data db =
       (Return (GenerateResponse (new_token w) (lower (gr_plan data))
                  (expiry_of (time_time w) duration)),
        (db ++ [mkRow (new_token w) None
                  (expiry_of (time_time w) duration) 0])%list)
  /\ (forall d, duration = Some d ->
        expiry_of (time_time w) duration = Some (time_time w + inject_Z d)%Q)
  /\ (duration = None -> expiry_of (time_time w) duration = None)
  /\ PLAN_DURATIONS =
       [ ("1d", Some 86400); ("3d", Some 259200); ("1w", Some 604800);
         ("2w", Some 1209600); ("3w", Some 1814400); ("6w", Some 3628800);
         ("1m", Some 2592000); ("2m", Some 5184000); ("3m", Some 7776000);
         ("6m", Some 15552000); ("9m", Some 23328000); ("1y", Some 31536000);
         ("2y", Some 63072000); ("infinite", None) ].
Proof.
  intros Hplan Hlen Hfresh.
  split.
  { exists (upper (hexlify (secrets_token_bytes w 12))).
    split; [reflexivity|]. split.
    - rewrite upper_hexlify_length, Hlen. reflexivity.
    - apply upper_hexlify_chars. }
  split.
  { rewrite generate_unfold, Hplan. unfold insert_token.
    apply select_row_none_existsb in Hfresh. rewrite Hfresh. reflexivity. }
  split; [intros d Hd; subst; reflexivity|].
  split; [intros Hd; subst; reflexivity|].
  reflexivity.
Qed.

Lemma generate_creates_token_witness :
  generate (demo_world 1000) (mkGenerateRequest "1W") []
  = (Return (GenerateResponse "OLLY-000000000000000000000000" "1w"
               (Some (1000 + inject_Z 604800)%Q)),
     [mkRow "OLLY-000000000000000000000000" None
        (Some (1000 + inject_Z 604800)%Q) 0]).
Proof.
  exact (proj1 (proj2 (generate_creates_token (demo_world 1000)
                         (mkGenerateRequest "1W") [] (Some 604800)
                         eq_refl eq_refl eq_refl))).
Defined.

(** C7.  [/generate] looks the lower-cased plan up in the table, so two
    spellings of a plan that differ in case are treated alike; it raises a
    400 exactly when the lower-cased plan is not a key; the detail of that
    400 is the fixed message listing the fourteen keys, and the table is
    left as it was. *)
Theorem generate_invalid_plan (w : world) (data : GenerateRequest) (db : table) :
  ((exists d, fst (generate w data db) = Raise (HTTPException 400 d))
     <-> dict_in (lower (gr_plan data)) PLAN_DURATIONS = false)
  /\ (forall s d, fst (generate w data db) = Raise (HTTPException s d) ->
        s = 400 /\ d = invalid_plan_detail /\ snd (generate w data db) = db)
  /\ invalid_plan_detail =
       "Invalid plan. Valid plans: 1d, 3d, 1w, 2w, 3w, 6w, 1m, 2m, 3m, 6m, 9m, 1y, 2y, infinite"
  /\ (forall k, dict_in k PLAN_DURATIONS = true <-> In k (dict_keys PLAN_DURATIONS))
  /\ (forall k, In k (dict_keys PLAN_DURATIONS) -> occurs_in k invalid_plan_detail)
  /\ (forall data', lower (gr_plan data') = lower (gr_plan data) ->
        fst (generate w data' db) = fst (generate w data db))
  /\ lower "INFINITE" = "infinite" /\ lower "1D" = "1d" /\ lower "2y" = "2y".
Proof.
  split.
  { rewrite generate_unfold. unfold dict_in.
    destruct (dict_get PLAN_DURATIONS (lower (gr_plan data))) as [du|].
    - destruct (insert_token _ _ db); simpl;
        (split; [intros [d Hd]; discriminate | discriminate]).
    - simpl. split; [reflexivity|]. intros _. eexists. reflexivity. }
  split.
  { intros s d. rewrite generate_unfold.
    destruct (dict_get PLAN_DURATIONS (lower (gr_plan data))) as [du|].
    - destruct (insert_token _ _ db); simpl; discriminate.
    - simpl. intros H. inversion H. auto. }
  split; [reflexivity|].
  split.
  { intros k. unfold dict_in, dict_keys.
    induction PLAN_DURATIONS as [|[k' v] d IH]; simpl.
    - split; [discriminate | tauto].
    - destruct (String.eqb k' k) eqn:E.
      + apply String.eqb_eq in E. tauto.
      + apply String.eqb_neq in E. rewrite IH. split; [tauto|].
        intros [H|H]; [contradiction | exact H]. }
  split.
  { intros k Hk. simpl in Hk.
    repeat (destruct Hk as [Hk|Hk];
            [subst k; eexists; vm_compute; reflexivity|]).
    contradiction. }
  split.
  { intros data' Hl. rewrite !generate_unfold, Hl. reflexivity. }
  repeat split.
Qed.

(** ** AdminInspect *)

(** [max(0, int(x))] is the whole number of seconds in [max(0, x)]. *)
Lemma int_whole_seconds (q : Q) :
  (inject_Z (Z.max 0 (int q)) <= Qmax 0 q)%Q
  /\ (Qmax 0 q < inject_Z (Z.max 0 (int q) + 1))%Q.
Proof.
  destruct (Z_lt_le_dec (Qnum q) 0) as [Hneg|Hpos].
  - assert (Hq : (q <= 0)%Q) by (unfold Qle; simpl; lia).
    assert (Hi : (int q <= 0)%Z).
    { unfold int. apply Z.quot_le_upper_bound; lia. }
    rewrite (Q.max_l 0 q Hq), Z.max_l by exact Hi.
    split; [apply Qle_refl | reflexivity].
  - assert (Hq : (0 <= q)%Q) by (unfold Qle; simpl; lia).
    assert (Hi : int q = Qfloor q).
    { unfold int, Qfloor. destruct q as [n d]. simpl in *.
      apply Z.quot_div_nonneg; lia. }
    assert (H0 : (0 <= Qfloor q)%Z).
    { rewrite <- (Qfloor_Z 0). apply Qfloor_resp_le. exact Hq. }
    rewrite (Q.max_r 0 q Hq), Hi, Z.max_r by exact H0.
    split; [apply Qfloor_le | apply Qlt_floor].
Qed.




(** ** AdminUnbind and AdminRevoke *)



(** ** Invariants of the table across requests *)

Section Invariants.

Variable g : module_globals.

Lemma map_token_update_hwid v tok db :
  map token (update_hwid v tok db) = map token db.
Proof.
  unfold update_hwid. rewrite map_map. apply map_ext.
  intros r. destruct (String.eqb (token r) tok); reflexivity.
Qed.

Lemma map_token_update_revoked tok db :
  map token (update_revoked tok db) = map token db.
Proof.
  unfold update_revoked. rewrite map_map. apply map_ext.
  intros r. destruct (String.eqb (token r) tok); reflexivity.
Qed.

Lemma existsb_token_In tok db :
  existsb (fun r => String.eqb (token r) tok) db = false ->
  ~ In tok (map token db).
Proof.
  induction db as [|r db IH]; simpl; [tauto|].
  destruct (String.eqb (token r) tok) eqn:E; simpl; [discriminate|].
  apply String.eqb_neq in E. intros H [H1|H1]; [congruence | exact (IH H H1)].
Qed.

Lemma insert_token_primary_key tok e db db' :
  primary_key db -> insert_token tok e db = Some db' -> primary_key db'.
Proof.
  unfold primary_key, insert_token. intros Hpk.
  destruct (existsb _ db) eqn:E; [discriminate|].
  intros H. inversion H. subst db'. clear H.
  rewrite map_app. simpl.
  apply existsb_token_In in E.
  assert (Hperm : NoDup (tok :: map token db)) by (constructor; assumption).
  revert Hperm. generalize (map token db). intros l Hl.
  inversion Hl as [|x l' Hnin Hnd]; subst.
  clear Hl. induction l as [|a l IH]; simpl.
  - constructor; [tauto | constructor].
  - inversion Hnd as [|y l' Ha Hl']; subst. constructor.
    + rewrite in_app_iff. simpl. intros [H|[H|[]]]; [tauto|].
      apply Hnin. left. symmetry. exact H.
    + apply IH; [|exact Hl']. intros H. apply Hnin. right. exact H.
Qed.

(** Every handler keeps the PRIMARY KEY constraint. *)
Lemma handle_primary_key w rq db :
  primary_key db -> primary_key (snd (handle g w rq db)).
Proof.
  intros Hpk. destruct rq as [data|data|k tok|k tok|k tok]; simpl.
  - unfold verify.
    destruct (select_row (vr_token data) db) as [[[e h] rv]|]; [|exact Hpk].
    destruct (truthy_int rv); [exact Hpk|].
    destruct (expiry_check (time_time w) e); [exact Hpk|].
    destruct h as [h|].
    + destruct (negb (String.eqb h (vr_hwid data))); exact Hpk.
    + simpl. unfold primary_key. rewrite map_token_update_hwid. exact Hpk.
  - rewrite generate_unfold.
    destruct (dict_get PLAN_DURATIONS (lower (gr_plan data))) as [du|];
      [|exact Hpk].
    destruct (insert_token _ _ db) as [db'|] eqn:E; [|exact Hpk].
    simpl. exact (insert_token_primary_key _ _ _ _ Hpk E).
  - unfold admin_verify. destruct (require_admin g w k); [|exact Hpk].
    destruct (select_row tok db) as [[[e h] rv]|]; exact Hpk.
  - unfold admin_unbind. destruct (require_admin g w k); [|exact Hpk].
    simpl. unfold primary_key. rewrite map_token_update_hwid. exact Hpk.
  - unfold admin_revoke. destruct (require_admin g w k); [|exact Hpk].
    simpl. unfold primary_key. rewrite map_token_update_revoked. exact Hpk.
Qed.

Lemma run_primary_key evs db :
  primary_key db -> primary_key (run g evs db).
Proof.
  revert db. induction evs as [|[w rq] evs IH]; intros db Hpk; simpl.
  - exact Hpk.
  - apply IH. apply handle_primary_key. exact Hpk.
Qed.

(** Under the constraint, the row SELECT finds for a token is the row that
    carries it. *)
Lemma primary_key_find db i r :
  primary_key db -> nth_error db i = Some r ->
  find (fun r' => String.eqb (token r') (token r)) db = Some r.
Proof.
  unfold primary_key. revert i.
  induction db as [|a db IH]; intros i Hpk Hn.
  - destruct i; discriminate.
  - simpl in Hpk. inversion Hpk as [|x l Hnin Hnd]; subst.
    destruct i as [|i]; simpl in Hn |- *.
    + inversion Hn. subst a. rewrite String.eqb_refl. reflexivity.
    + destruct (String.eqb (token a) (token r)) eqn:E.
      * exfalso. apply String.eqb_eq in E. apply Hnin. rewrite E.
        apply in_map. eapply nth_error_In. exact Hn.
      * eapply IH; eassumption.
Qed.

Lemma primary_key_select db i r :
  primary_key db -> nth_error db i = Some r ->
  select_row (token r) db = Some (expires_at r, hwid r, revoked r).
Proof.
  intros Hpk Hn. unfold select_row.
  rewrite (primary_key_find db i r Hpk Hn). reflexivity.
Qed.

Lemma row_kept_refl r : row_kept r r.
Proof. unfold row_kept. auto. Qed.

Lemma row_kept_trans r1 r2 r3 :
  row_kept r1 r2 -> row_kept r2 r3 -> row_kept r1 r3.
Proof.
  unfold row_kept. intros [A [B C]] [A' [B' C']].
  repeat split; try congruence. auto.
Qed.

Lemma update_hwid_keeps v tok db i r :
  nth_error db i = Some r ->
  exists r', nth_error (update_hwid v tok db) i = Some r' /\ row_kept r r'.
Proof.
  intros Hn. unfold update_hwid. rewrite nth_error_map, Hn. simpl.
  eexists. split; [reflexivity|].
  destruct (String.eqb (token r) tok); unfold row_kept; simpl; auto.
Qed.

Lemma update_revoked_keeps tok db i r :
  nth_error db i = Some r ->
  exists r', nth_error (update_revoked tok db) i = Some r' /\ row_kept r r'.
Proof.
  intros Hn. unfold update_revoked. rewrite nth_error_map, Hn. simpl.
  eexists. split; [reflexivity|].
  destruct (String.eqb (token r) tok); unfold row_kept; simpl; auto.
Qed.

Lemma handle_keeps_rows w rq db i r :
  nth_error db i = Some r ->
  exists r', nth_error (snd (handle g w rq db)) i = Some r' /\ row_kept r r'.
Proof.
  intros Hn.
  assert (Hsame : exists r', nth_error db i = Some r' /\ row_kept r r')
    by (exists r; split; [exact Hn | apply row_kept_refl]).
  destruct rq as [data|data|k tok|k tok|k tok]; simpl.
  - unfold verify.
    destruct (select_row (vr_token data) db) as [[[e h] rv]|]; [|exact Hsame].
    destruct (truthy_int rv); [exact Hsame|].
    destruct (expiry_check (time_time w) e); [exact Hsame|].
    destruct h as [h|].
    + destruct (negb (String.eqb h (vr_hwid data))); exact Hsame.
    + simpl. apply update_hwid_keeps. exact Hn.
  - rewrite generate_unfold.
    destruct (dict_get PLAN_DURATIONS (lower (gr_plan data))) as [du|];
      [|exact Hsame].
    unfold insert_token. destruct (existsb _ db); [exact Hsame|].
    simpl. exists r. split; [|apply row_kept_refl].
    rewrite nth_error_app1; [exact Hn|].
    apply nth_error_Some. congruence.
  - unfold admin_verify. destruct (require_admin g w k); [|exact Hsame].
    destruct (select_row tok db) as [[[e h] rv]|]; exact Hsame.
  - unfold admin_unbind. destruct (require_admin g w k); [|exact Hsame].
    simpl. apply update_hwid_keeps. exact Hn.
  - unfold admin_revoke. destruct (require_admin g w k); [|exact Hsame].
    simpl. apply update_revoked_keeps. exact Hn.
Qed.

Lemma run_keeps_rows evs db i r :
  nth_error db i = Some r ->
  exists r', nth_error (run g evs db) i = Some r' /\ row_kept r r'.
Proof.
  revert db r. induction evs as [|[w rq] evs IH]; intros db r Hn; simpl.
  - exists r. split; [exact Hn | apply row_kept_refl].
  - destruct (handle_keeps_rows w rq db i r Hn) as [r1 [H1 K1]].
    destruct (IH _ _ H1) as [r2 [H2 K2]].
    exists r2. split; [exact H2 | eapply row_kept_trans; eassumption].
Qed.

Lemma plan_duration_positive k d :
  dict_get PLAN_DURATIONS k = Some (Some d) -> 0 < d.
Proof.
  unfold PLAN_DURATIONS. cbn [dict_get].
  repeat (destruct (String.eqb _ k); [intros H; inversion H; lia|]).
  discriminate.
Qed.

Lemma expiry_of_after_epoch now d t :
  (0 <= now)%Q -> 0 < d -> expiry_of now (Some d) = Some t -> (0 < t)%Q.
Proof.
  intros Hnow Hd H. inversion H. subst t. clear H.
  destruct now as [n dn]. unfold Qlt, Qle, Qplus in *. simpl in *. nia.
Qed.

Lemma handle_stamped w rq db :
  (0 <= time_time w)%Q -> stamped db -> stamped (snd (handle g w rq db)).
Proof.
  intros Hnow Hst.
  assert (Hh : forall v tok, stamped (update_hwid v tok db)).
  { intros v tok r t Hin He. unfold update_hwid in Hin.
    apply in_map_iff in Hin. destruct Hin as [r0 [Hr Hin]].
    apply (Hst r0 t Hin). subst r.
    destruct (String.eqb (token r0) tok); exact He. }
  assert (Hr : forall tok, stamped (update_revoked tok db)).
  { intros tok r t Hin He. unfold update_revoked in Hin.
    apply in_map_iff in Hin. destruct Hin as [r0 [Hr Hin]].
    apply (Hst r0 t Hin). subst r.
    destruct (String.eqb (token r0) tok); exact He. }
  destruct rq as [data|data|k tok|k tok|k tok]; simpl.
  - unfold verify.
    destruct (select_row (vr_token data) db) as [[[e h] rv]|]; [|exact Hst].
    destruct (truthy_int rv); [exact Hst|].
    destruct (expiry_check (time_time w) e); [exact Hst|].
    destruct h as [h|].
    + destruct (negb (String.eqb h (vr_hwid data))); exact Hst.
    + simpl. apply Hh.
  - rewrite generate_unfold.
    destruct (dict_get PLAN_DURATIONS (lower (gr_plan data))) as [du|] eqn:Hd;
      [|exact Hst].
    unfold insert_token. destruct (existsb _ db); [exact Hst|].
    simpl. intros r t Hin He. apply in_app_iff in Hin.
    destruct Hin as [Hin|[Hin|[]]]; [exact (Hst r t Hin He)|].
    subst r. simpl in He. destruct du as [d|]; [|discriminate].
    apply (expiry_of_after_epoch (time_time w) d t Hnow); [|exact He].
    apply (plan_duration_positive _ _ Hd).
  - unfold admin_verify. destruct (require_admin g w k); [|exact Hst].
    destruct (select_row tok db) as [[[e h] rv]|]; exact Hst.
  - unfold admin_unbind. destruct (require_admin g w k); [|exact Hst].
    simpl. apply Hh.
  - unfold admin_revoke. destruct (require_admin g w k); [|exact Hst].
    simpl. apply Hr.
Qed.

Lemma run_stamped evs db :
  after_epoch evs -> stamped db -> stamped (run g evs db).
Proof.
  revert db. induction evs as [|[w rq] evs IH]; intros db Hev Hst; simpl.
  - exact Hst.
  - inversion Hev as [|ev evs' Hw Hevs]; subst.
    apply IH; [exact Hevs|]. apply handle_stamped; assumption.
Qed.

(** On a stamped row the guard of [verify] passes exactly when the expiry is
    not in the past. *)
Lemma stamped_guard_not_past now e :
  (forall t, e = Some t -> (0 < t)%Q) ->
  expiry_check now e = false -> not_past now e.
Proof.
  intros Hpos Hg t He.
  destruct (Qlt_le_dec t now) as [Hlt|Hle]; [|exact Hle].
  exfalso. assert (Hc : expiry_check now e = true).
  { apply expiry_check_spec. exists t. split; [exact He|]. split; [|exact Hlt].
    intros Hz. specialize (Hpos t He). rewrite Hz in Hpos.
    exact (Qlt_irrefl 0 Hpos). }
  congruence.
Qed.

End Invariants.

Lemma handle_hwid_change (g : module_globals) (w : world) (rq : request)
    (db : table) (i : nat) (r r' : row) :
  primary_key db ->
  nth_error db i = Some r ->
  nth_error (snd (handle g w rq db)) i = Some r' ->
  hwid r' <> hwid r ->
  bound_by_verify w rq r r' \/ cleared_by_unbind g w rq r r'.
Proof.
  intros Hpk Hn Hn' Hch.
  assert (Hsame : nth_error db i = Some r' -> False).
  { intros H. rewrite Hn in H. inversion H. subst. apply Hch. reflexivity. }
  destruct rq as [data|data|k tok|k tok|k tok]; simpl in Hn'.
  - left. unfold verify in Hn'.
    destruct (select_row (vr_token data) db) as [[[e h] rv]|] eqn:Hsel;
      [|contradiction (Hsame Hn')].
    destruct (truthy_int rv) eqn:Hrv; [contradiction (Hsame Hn')|].
    destruct (expiry_check (time_time w) e) eqn:Hexp;
      [contradiction (Hsame Hn')|].
    destruct h as [h|].
    { destruct (negb (String.eqb h (vr_hwid data)));
        contradiction (Hsame Hn'). }
    simpl in Hn'. unfold update_hwid in Hn'.
    rewrite nth_error_map, Hn in Hn'. simpl in Hn'.
    destruct (String.eqb (token r) (vr_token data)) eqn:E.
    + apply String.eqb_eq in E.
      pose proof (primary_key_select db i r Hpk Hn) as Hs.
      rewrite E, Hsel in Hs. inversion Hs; subst e rv.
      inversion Hn'. subst r'. simpl.
      exists data. repeat split; auto.
    + inversion Hn'. subst r'. exfalso. apply Hch. reflexivity.
  - exfalso. rewrite generate_unfold in Hn'.
    destruct (dict_get PLAN_DURATIONS (lower (gr_plan data))) as [du|];
      [|exact (Hsame Hn')].
    unfold insert_token in Hn'. destruct (existsb _ db); [exact (Hsame Hn')|].
    simpl in Hn'. rewrite nth_error_app1 in Hn'; [exact (Hsame Hn')|].
    apply nth_error_Some. congruence.
  - exfalso. unfold admin_verify in Hn'.
    destruct (require_admin g w k); [|exact (Hsame Hn')].
    destruct (select_row tok db) as [[[e h] rv]|]; exact (Hsame Hn').
  - right. unfold admin_unbind in Hn'.
    destruct (require_admin g w k) as [[]|x] eqn:Hauth;
      [|contradiction (Hsame Hn')].
    simpl in Hn'. unfold update_hwid in Hn'.
    rewrite nth_error_map, Hn in Hn'. simpl in Hn'.
    destruct (String.eqb (token r) tok) eqn:E.
    + apply String.eqb_eq in E. subst tok.
      inversion Hn'. subst r'. simpl.
      exists k. auto.
    + inversion Hn'. subst r'. exfalso. apply Hch. reflexivity.
  - exfalso. unfold admin_revoke in Hn'.
    destruct (require_admin g w k); [|exact (Hsame Hn')].
    simpl in Hn'. unfold update_revoked in Hn'.
    rewrite nth_error_map, Hn in Hn'. simpl in Hn'.
    destruct (String.eqb (token r) tok); inversion Hn'; subst r';
      apply Hch; reflexivity.
Qed.

(** C10.  From a table that satisfies its PRIMARY KEY constraint, after any
    sequence of requests: the constraint still holds; every row that was
    stored is still stored at its place (nothing is deleted) with the same
    token, and is still revoked if it was.  And whatever request comes next,
    a row whose hwid it changes either had no hwid and got the one supplied
    to a [/verify] for its token, the row being not revoked and passing the
    expiry guard of [verify], or got its hwid cleared by an authenticated
    [/admin/unbind] for its token.  When the stored expiries and the clock
    readings are times after the epoch, passing the guard is the same as the
    expiry not being in the past. *)
Theorem api_invariants (g : module_globals) (db0 : table)
    (evs : list (world * request)) :
  primary_key db0 ->
  primary_key (run g evs db0)
  /\ (forall i r, nth_error db0 i = Some r ->
        exists r', nth_error (run g evs db0) i = Some r'
          /\ token r' = token r
          /\ (truthy_int (revoked r) = true -> truthy_int (revoked r') = true))
  /\ (forall w rq i r r',
        nth_error (run g evs db0) i = Some r ->
        nth_error (snd (handle g w rq (run g evs db0))) i = Some r' ->
        hwid r' <> hwid r ->
        bound_by_verify w rq r r' \/ cleared_by_unbind g w rq r r')
  /\ (stamped db0 -> after_epoch evs ->
      forall w rq i r r',
        nth_error (run g evs db0) i = Some r ->
        nth_error (snd (handle g w rq (run g evs db0))) i = Some r' ->
        hwid r' <> hwid r ->
        (bound_by_verify w rq r r' /\ not_past (time_time w) (expires_at r))
        \/ cleared_by_unbind g w rq r r').
Proof.
  intros Hpk. split; [apply run_primary_key; exact Hpk|]. split.
  { intros i r Hn.
    destruct (run_keeps_rows g evs db0 i r Hn) as [r' [H1 [H2 [_ H3]]]].
    exists r'. auto. }
  split.
  { intros w rq i r r'. apply handle_hwid_change.
    apply run_primary_key. exact Hpk. }
  intros Hst Hev w rq i r r' Hn Hn' Hch.
  destruct (handle_hwid_change g w rq _ i r r'
              (run_primary_key g evs db0 Hpk) Hn Hn' Hch) as [Hb|Hc];
    [left|right; exact Hc].
  split; [exact Hb|].
  destruct Hb as [data [_ [_ [_ [_ [_ Hg]]]]]].
  apply stamped_guard_not_past; [|exact Hg].
  intros t He. apply (run_stamped g evs db0 Hev Hst r t); [|exact He].
  eapply nth_error_In. exact Hn.
Qed.

Lemma api_invariants_witness :
  stamped [mkRow demo_token None (Some 2000%Q) 0]
  /\ after_epoch demo_requests
  /\ primary_key (run demo_globals demo_requests
                    [mkRow demo_token None (Some 2000%Q) 0]).
Proof.
  split.
  { intros r t [Hr|[]] He. subst r. inversion He. subst t.
    vm_compute. reflexivity. }
  split.
  { unfold after_epoch, demo_requests.
    repeat (constructor; [vm_compute; discriminate|]). constructor. }
  refine (proj1 (api_invariants demo_globals
                   [mkRow demo_token None (Some 2000%Q) 0] demo_requests _)).
  unfold primary_key. simpl.
  constructor; [simpl; tauto | constructor].
Defined.

(** ** Effects of a single request *)

(** X2.  A request that is answered with an error has changed nothing: the
    table it leaves is the table it found, for each of the five handlers and
    whatever exception is raised. *)
Theorem error_leaves_table (g : module_globals) (w : world) (rq : request)
    (db : table) (x : exn) :
  fst (handle g w rq db) = Raise x -> snd (handle g w rq db) = db.
Proof.
  destruct rq as [data|data|k tok|k tok|k tok]; simpl.
  - unfold verify.
    destruct (select_row (vr_token data) db) as [[[e h] rv]|]; [|reflexivity].
    destruct (truthy_int rv); [reflexivity|].
    destruct (expiry_check (time_time w) e); [reflexivity|].
    destruct h as [h|].
    + destruct (negb (String.eqb h (vr_hwid data))); reflexivity.
    + simpl. discriminate.
  - rewrite generate_unfold.
    destruct (dict_get PLAN_DURATIONS (lower (gr_plan data))); [|reflexivity].
    destruct (insert_token _ _ db); [simpl; discriminate | reflexivity].
  - unfold admin_verify. destruct (require_admin g w k); [|reflexivity].
    destruct (select_row tok db) as [[[e h] rv]|]; reflexivity.
  - unfold admin_unbind. destruct (require_admin g w k);
      [simpl; discriminate | reflexivity].
  - unfold admin_revoke. destruct (require_admin g w k);
      [simpl; discriminate | reflexivity].
Qed.

Lemma error_leaves_table_witness :
  snd (handle demo_globals (demo_world 1000)
         (PostAdminRevoke (Some "wrong") demo_token)
         [mkRow demo_token (Some "A") None 0])
  = [mkRow demo_token (Some "A") None 0].
Proof.
  exact (error_leaves_table demo_globals (demo_world 1000)
           (PostAdminRevoke (Some "wrong") demo_token)
           [mkRow demo_token (Some "A") None 0]
           (HTTPException 401 "Unauthorized") eq_refl).
Defined.

(** X3.  A request leaves every row alone whose token is not the one the
    request names: the row is found afterwards at the same place with all
    four columns as they were.  [/generate] names no token and so leaves
    every stored row alone. *)
Theorem other_rows_untouched (g : module_globals) (w : world) (rq : request)
    (db : table) (i : nat) (r : row) :
  nth_error db i = Some r ->
  request_token rq <> Some (token r) ->
  nth_error (snd (handle g w rq db)) i = Some r.
Proof.
  intros Hn Hne.
  assert (Hh : forall v tok, tok <> token r ->
            nth_error (update_hwid v tok db) i = Some r).
  { intros v tok Ht. unfold update_hwid. rewrite nth_error_map, Hn. simpl.
    destruct (String.eqb (token r) tok) eqn:E; [|reflexivity].
    apply String.eqb_eq in E. congruence. }
  assert (Hr : forall tok, tok <> token r ->
            nth_error (update_revoked tok db) i = Some r).
  { intros tok Ht. unfold update_revoked. rewrite nth_error_map, Hn. simpl.
    destruct (String.eqb (token r) tok) eqn:E; [|reflexivity].
    apply String.eqb_eq in E. congruence. }
  destruct rq as [data|data|k tok|k tok|k tok]; simpl in *.
  - unfold verify.
    destruct (select_row (vr_token data) db) as [[[e h] rv]|]; [|exact Hn].
    destruct (truthy_int rv); [exact Hn|].
    destruct (expiry_check (time_time w) e); [exact Hn|].
    destruct h as [h|].
    + destruct (negb (String.eqb h (vr_hwid data))); exact Hn.
    + simpl. apply Hh. congruence.
  - rewrite generate_unfold.
    destruct (dict_get PLAN_DURATIONS (lower (gr_plan data))); [|exact Hn].
    unfold insert_token. destruct (existsb _ db); [exact Hn|].
    simpl. rewrite nth_error_app1; [exact Hn|].
    apply nth_error_Some. congruence.
  - unfold admin_verify. destruct (require_admin g w k); [|exact Hn].
    destruct (select_row tok db) as [[[e h] rv]|]; exact Hn.
  - unfold admin_unbind. destruct (require_admin g w k); [|exact Hn].
    simpl. apply Hh. congruence.
  - unfold admin_revoke. destruct (require_admin g w k); [|exact Hn].
    simpl. apply Hr. congruence.
Qed.

Lemma other_rows_untouched_witness :
  nth_error (snd (handle demo_globals (demo_world 1000)
                    (PostAdminRevoke (Some "s3cret") demo_token)
                    [mkRow demo_token None None 0;
                     mkRow "OLLY-000000000000000000000000" (Some "B") None 0]))
            1
  = Some (mkRow "OLLY-000000000000000000000000" (Some "B") None 0).
Proof.
  apply (other_rows_untouched demo_globals (demo_world 1000)
           (PostAdminRevoke (Some "s3cret") demo_token)
           [mkRow demo_token None None 0;
            mkRow "OLLY-000000000000000000000000" (Some "B") None 0]
           1 (mkRow "OLLY-000000000000000000000000" (Some "B") None 0)
           eq_refl).
  simpl. discriminate.
Defined.

(** X4.  No sequence of requests changes the expiry of a stored token: the
    row is still at its place and its [expires_at] is the one it was created
    with. *)
Theorem expiry_never_changes (g : module_globals) (evs : list (world * request))
    (db : table) (i : nat) (r : row) :
  nth_error db i = Some r ->
  exists r', nth_error (run g evs db) i = Some r'
             /\ expires_at r' = expires_at r.
Proof.
  intros Hn.
  destruct (run_keeps_rows g evs db i r Hn) as [r' [H1 [_ [H2 _]]]].
  exists r'. split; assumption.
Qed.

Lemma expiry_never_changes_witness :
  exists r', nth_error (run demo_globals demo_requests
                          [mkRow demo_token None (Some 2000%Q) 0]) 0 = Some r'
             /\ expires_at r' = Some 2000%Q.
Proof.
  exact (expiry_never_changes demo_globals demo_requests
           [mkRow demo_token None (Some 2000%Q) 0] 0
           (mkRow demo_token None (Some 2000%Q) 0) eq_refl).
Defined.

(** X5.  The tokens stored after a request are the tokens stored before it,
    in the same order, followed by the token of the response when the
    response is that of a successful [/generate]: no other request adds a
    row, none removes or renames one, and [/generate] adds exactly the token
    it returns. *)
Theorem tokens_appended_by_generate (g : module_globals) (w : world)
    (rq : request) (db : table) :
  map token (snd (handle g w rq db))
  = (map token db ++ created_token (fst (handle g w rq db)))%list
  /\ ((forall data, rq <> PostGenerate data) ->
        created_token (fst (handle g w rq db)) = []).
Proof.
  split.
  - destruct rq as [data|data|k tok|k tok|k tok]; simpl.
    + unfold verify.
      destruct (select_row (vr_token data) db) as [[[e h] rv]|];
        [|simpl; rewrite app_nil_r; reflexivity].
      destruct (truthy_int rv); [simpl; rewrite app_nil_r; reflexivity|].
      destruct (expiry_check (time_time w) e);
        [simpl; rewrite app_nil_r; reflexivity|].
      destruct h as [h|].
      * destruct (negb (String.eqb h (vr_hwid data)));
          simpl; rewrite app_nil_r; reflexivity.
      * simpl. rewrite app_nil_r. apply map_token_update_hwid.
    + rewrite generate_unfold.
      destruct (dict_get PLAN_DURATIONS (lower (gr_plan data)));
        [|simpl; rewrite app_nil_r; reflexivity].
      unfold insert_token. destruct (existsb _ db);
        [simpl; rewrite app_nil_r; reflexivity|].
      simpl. rewrite map_app. reflexivity.
    + unfold admin_verify. destruct (require_admin g w k);
        [|simpl; rewrite app_nil_r; reflexivity].
      destruct (select_row tok db) as [[[e h] rv]|];
        simpl; rewrite app_nil_r; reflexivity.
    + unfold admin_unbind. destruct (require_admin g w k);
        simpl; rewrite app_nil_r; [apply map_token_update_hwid | reflexivity].
    + unfold admin_revoke. destruct (require_admin g w k);
        simpl; rewrite app_nil_r; [apply map_token_update_revoked | reflexivity].
  - intros Hrq.
    destruct rq as [data|data|k tok|k tok|k tok]; simpl.
    + unfold verify.
      destruct (select_row (vr_token data) db) as [[[e h] rv]|]; [|reflexivity].
      destruct (truthy_int rv); [reflexivity|].
      destruct (expiry_check (time_time w) e); [reflexivity|].
      destruct h as [h|]; [|reflexivity].
      destruct (negb (String.eqb h (vr_hwid data))); reflexivity.
    + exfalso. apply (Hrq data). reflexivity.
    + unfold admin_verify. destruct (require_admin g w k); [|reflexivity].
      destruct (select_row tok db) as [[[e h] rv]|]; reflexivity.
    + unfold admin_unbind. destruct (require_admin g w k); reflexivity.
    + unfold admin_revoke. destruct (require_admin g w k); reflexivity.
Qed.

(** ** How the requests compose *)

Lemma select_row_nth (tok : string) (db : table) e h rv :
  select_row tok db = Some (e, h, rv) ->
  exists i r, nth_error db i = Some r /\ token r = tok
              /\ expires_at r = e /\ hwid r = h /\ revoked r = rv.
Proof.
  unfold select_row.
  destruct (find (fun r => String.eqb (token r) tok) db) as [r|] eqn:F;
    [|discriminate].
  intros H. inversion H; subst. clear H.
  apply find_some in F. destruct F as [Hin Heq].
  apply String.eqb_eq in Heq.
  destruct (In_nth_error db r Hin) as [i Hi].
  exists i, r. auto.
Qed.

Lemma select_row_insert (tok : string) (e : option Q) (db db' : table) :
  insert_token tok e db = Some db' -> select_row tok db' = Some (e, None, 0).
Proof.
  unfold insert_token.
  destruct (existsb (fun r => String.eqb (token r) tok) db) eqn:E;
    [discriminate|].
  intros H. inversion H. subst db'. clear H.
  unfold select_row. induction db as [|r db IH]; simpl in *.
  - rewrite String.eqb_refl. reflexivity.
  - destruct (String.eqb (token r) tok); [discriminate|]. apply IH. exact E.
Qed.

Lemma update_hwid_twice (v v' : option string) (tok : string) (db : table) :
  update_hwid v' tok (update_hwid v tok db) = update_hwid v' tok db.
Proof.
  unfold update_hwid. rewrite map_map. apply map_ext. intros r.
  destruct (String.eqb (token r) tok) eqn:E; simpl; rewrite E; reflexivity.
Qed.

Lemma update_revoked_primary_key (tok : string) (db : table) :
  primary_key db -> primary_key (update_revoked tok db).
Proof.
  unfold primary_key. rewrite map_token_update_revoked. auto.
Qed.

Lemma revoked_row_rejected (w : world) (db : table) (i : nat) (r : row)
    (hw : string) :
  primary_key db -> nth_error db i = Some r ->
  truthy_int (revoked r) = true ->
  verify w (mkVerifyRequest (token r) hw) db
  = (Raise (HTTPException 403 "Token revoked"), db).
Proof.
  intros Hpk Hn Hrv. unfold verify. simpl.
  rewrite (primary_key_select db i r Hpk Hn), Hrv. reflexivity.
Qed.

(** X6.  Revocation is permanent.  Once an authenticated [/admin/revoke] has
    hit a stored token, then after any further sequence of requests (unbind,
    verify, generate, revoke again, at any clock reading) every [/verify] of
    that token raises 403 "Token revoked", whatever hwid it presents, and
    changes nothing. *)
Theorem revoke_is_permanent (g : module_globals) (w0 : world)
    (k : option string) (db : table) (tok : string) :
  primary_key db ->
  require_admin g w0 k = Return tt ->
  select_row tok db <> None ->
  forall (evs : list (world * request)) (w : world) (hw : string),
    verify w (mkVerifyRequest tok hw)
      (run g evs (snd (admin_revoke g w0 k tok db)))
    = (Raise (HTTPException 403 "Token revoked"),
       run g evs (snd (admin_revoke g w0 k tok db))).
Proof.
  intros Hpk Hauth Hex evs w hw.
  unfold admin_revoke. rewrite Hauth. simpl.
  destruct (select_row tok db) as [[[e h] rv]|] eqn:Hsel; [|congruence].
  pose proof (select_row_update_revoked tok db e h rv Hsel) as Hsel1.
  destruct (select_row_nth _ _ _ _ _ Hsel1) as [i [r [Hn [Ht [_ [_ Hr]]]]]].
  destruct (run_keeps_rows g evs _ i r Hn) as [r' [Hn' [Ht' [_ Hrv']]]].
  assert (Hpk' : primary_key (run g evs (update_revoked tok db))).
  { apply run_primary_key. apply update_revoked_primary_key. exact Hpk. }
  replace (mkVerifyRequest tok hw) with (mkVerifyRequest (token r') hw)
    by congruence.
  apply (revoked_row_rejected w _ i r' hw Hpk' Hn').
  apply Hrv'. rewrite Hr. reflexivity.
Qed.

Lemma revoke_is_permanent_witness :
  verify (demo_world 1500) (mkVerifyRequest demo_token "A")
    (run demo_globals demo_requests
       (snd (admin_revoke demo_globals (demo_world 1000) (Some "s3cret")
               demo_token [mkRow demo_token None None 0])))
  = (Raise (HTTPException 403 "Token revoked"),
     run demo_globals demo_requests
       (snd (admin_revoke demo_globals (demo_world 1000) (Some "s3cret")
               demo_token [mkRow demo_token None None 0]))).
Proof.
  apply (revoke_is_permanent demo_globals (demo_world 1000) (Some "s3cret")
           [mkRow demo_token None None 0] demo_token).
  - unfold primary_key. simpl. constructor; [simpl; tauto | constructor].
  - reflexivity.
  - simpl. discriminate.
Defined.

Lemma plus_duration_not_past (now : Q) (d : Z) :
  0 < d -> not_past now (expiry_of now (Some d)).
Proof.
  intros Hd t Ht. inversion Ht. subst t. clear Ht.
  destruct now as [n dn]. unfold Qle, Qplus. simpl. nia.
Qed.

(** X7.  A token that [/generate] has just returned is stored unbound and
    unrevoked with the expiry of the response, and the first [/verify] that
    presents it succeeds and binds the hwid it brings: at the clock reading
    of the generation itself, and at any clock reading that is not past the
    expiry. *)
Theorem generated_token_verifies (w : world) (data : GenerateRequest)
    (db db' : table) (tok plan : string) (e : option Q) :
  generate w data db = (Return (GenerateResponse tok plan e), db') ->
  select_row tok db' = Some (e, None, 0)
  /\ (forall hw,
        verify w (mkVerifyRequest tok hw) db'
        = (Return (StatusResponse "ok"), update_hwid (Some hw) tok db'))
  /\ (forall w' hw, not_past (time_time w') e ->
        verify w' (mkVerifyRequest tok hw) db'
        = (Return (StatusResponse "ok"), update_hwid (Some hw) tok db')).
Proof.
  rewrite generate_unfold.
  destruct (dict_get PLAN_DURATIONS (lower (gr_plan data))) as [du|] eqn:Hd;
    [|discriminate].
  destruct (insert_token (new_token w) (expiry_of (time_time w) du) db)
    as [db1|] eqn:Hins; [|discriminate].
  intros H. inversion H. subst tok plan e db'. clear H.
  pose proof (select_row_insert _ _ _ _ Hins) as Hsel.
  assert (Hv : forall w' hw,
             not_past (time_time w') (expiry_of (time_time w) du) ->
             verify w' (mkVerifyRequest (new_token w) hw) db1
             = (Return (StatusResponse "ok"),
                update_hwid (Some hw) (new_token w) db1)).
  { intros w' hw Hnp. unfold verify. simpl. rewrite Hsel. simpl.
    rewrite (not_past_passes _ _ Hnp). reflexivity. }
  split; [exact Hsel|]. split; [|exact Hv].
  intros hw. apply Hv.
  destruct du as [d|].
  - apply plus_duration_not_past. apply (plan_duration_positive _ _ Hd).
  - intros t Ht. discriminate.
Qed.

Lemma generated_token_verifies_witness :
  select_row "OLLY-000000000000000000000000"
    [mkRow "OLLY-000000000000000000000000" None
       (Some (1000 + inject_Z 604800)%Q) 0]
  = Some (Some (1000 + inject_Z 604800)%Q, None, 0).
Proof.
  exact (proj1 (generated_token_verifies (demo_world 1000)
                  (mkGenerateRequest "1W") []
                  [mkRow "OLLY-000000000000000000000000" None
                     (Some (1000 + inject_Z 604800)%Q) 0]
                  "OLLY-000000000000000000000000" "1w"
                  (Some (1000 + inject_Z 604800)%Q) eq_refl)).
Defined.



(** X9.  Unbinding re-opens the binding.  After an authenticated
    [/admin/unbind] of a stored token that is not revoked, the next
    [/verify] that the expiry guard lets through succeeds with whatever hwid
    it presents and binds the token to it; the table is then the original
    one with that hwid on the token. *)
Theorem unbind_allows_rebinding (g : module_globals) (w0 : world)
    (k : option string) (db : table) (tok : string) e h rv :
  require_admin g w0 k = Return tt ->
  select_row tok db = Some (e, h, rv) ->
  truthy_int rv = false ->
  forall w hw,
    expiry_check (time_time w) e = false ->
    verify w (mkVerifyRequest tok hw) (snd (admin_unbind g w0 k tok db))
    = (Return (StatusResponse "ok"), update_hwid (Some hw) tok db)
    /\ select_row tok (update_hwid (Some hw) tok db) = Some (e, Some hw, rv).
Proof.
  intros Hauth Hsel Hrv w hw Hexp.
  unfold admin_unbind. rewrite Hauth. simpl.
  unfold verify. simpl.
  rewrite (select_row_update_hwid tok None db e h rv Hsel), Hrv, Hexp.
  rewrite update_hwid_twice. split; [reflexivity|].
  apply select_row_update_hwid with (h := h). exact Hsel.
Qed.

Lemma unbind_allows_rebinding_witness :
  verify (demo_world 1500) (mkVerifyRequest demo_token "B")
    (snd (admin_unbind demo_globals (demo_world 1000) (Some "s3cret")
            demo_token [mkRow demo_token (Some "A") (Some 2000%Q) 0]))
  = (Return (StatusResponse "ok"),
     update_hwid (Some "B") demo_token
       [mkRow demo_token (Some "A") (Some 2000%Q) 0]).
Proof.
  exact (proj1 (unbind_allows_rebinding demo_globals (demo_world 1000)
                  (Some "s3cret")
                  [mkRow demo_token (Some "A") (Some 2000%Q) 0] demo_token
                  (Some 2000%Q) (Some "A") 0 eq_refl eq_refl eq_refl
                  (demo_world 1500) "B" eq_refl)).
Defined.

(** ** Inspect and verify on the same row *)

Lemma verify_expired_guard (w : world) (data : VerifyRequest) (db : table)
    e h rv :
  select_row (vr_token data) db = Some (e, h, rv) ->
  (fst (verify w data db) = Raise (HTTPException 403 "Token expired") <->
   truthy_int rv = false /\ expiry_check (time_time w) e = true).
Proof.
  intros Hsel. unfold verify. rewrite Hsel.
  destruct (truthy_int rv); simpl.
  - split; [discriminate | intros [H _]; discriminate].
  - destruct (expiry_check (time_time w) e); simpl.
    + tauto.
    + split; [|intros [_ H]; discriminate].
      destruct h as [h|]; [destruct (negb (String.eqb h (vr_hwid data)))|];
        simpl; discriminate.
Qed.

Lemma past_no_seconds (q : Q) : (q <= 0)%Q -> Z.max 0 (int q) = 0.
Proof.
  intros Hq. destruct (int_whole_seconds q) as [Hlo _].
  rewrite (Q.max_l 0 q Hq) in Hlo.
  assert (H0 : (Z.max 0 (int q) <= 0)%Z).
  { rewrite Zle_Qle. exact Hlo. }
  lia.
Qed.

Lemma max_int_floor (q : Q) : Z.max 0 (int q) = Z.max 0 (Qfloor q).
Proof.
  destruct (Z_lt_le_dec (Qnum q) 0) as [Hneg|Hpos].
  - assert (Hq : (q <= 0)%Q) by (unfold Qle; simpl; lia).
    rewrite (past_no_seconds q Hq).
    assert (Hf : (Qfloor q <= 0)%Z).
    { rewrite <- (Qfloor_Z 0). apply Qfloor_resp_le. exact Hq. }
    lia.
  - assert (Hi : int q = Qfloor q).
    { unfold int, Qfloor. destruct q as [n d]. simpl in *.
      apply Z.quot_div_nonneg; lia. }
    rewrite Hi. reflexivity.
Qed.

Lemma seconds_monotone (t now now' : Q) :
  (now <= now')%Q ->
  Z.max 0 (int (t - now')%Q) <= Z.max 0 (int (t - now)%Q).
Proof.
  intros Hle. rewrite !max_int_floor.
  apply Z.max_le_compat_l. apply Qfloor_resp_le.
  unfold Qminus. apply Qplus_le_compat; [apply Qle_refl|].
  apply Qopp_le_compat. exact Hle.
Qed.

(** X10.  What [/admin/verify] reports about a stored token agrees with what
    [/verify] does with it at the same clock reading: when [/verify] raises
    403 "Token expired", the report has [seconds_remaining] 0 and [revoked]
    false; so a report with positive or null [seconds_remaining] means that
    [/verify] does not raise "Token expired", whatever hwid is presented. *)
Theorem inspect_agrees_with_verify (g : module_globals) (w : world)
    (k : option string) (tok : string) (db : table) e h rv :
  require_admin g w k = Return tt ->
  select_row tok db = Some (e, h, rv) ->
  exists sr,
    fst (admin_verify g w k tok db)
    = Return (InspectResponse tok h (truthy_int rv) e sr)
    /\ (forall hw,
          fst (verify w (mkVerifyRequest tok hw) db)
          = Raise (HTTPException 403 "Token expired") ->
          sr = Some 0 /\ truthy_int rv = false)
    /\ (forall hw,
          sr <> Some 0 ->
          fst (verify w (mkVerifyRequest tok hw) db)
          <> Raise (HTTPException 403 "Token expired"))
    /\ (forall n, sr = Some n -> 0 <= n).
Proof.
  intros Hauth Hsel. unfold admin_verify. rewrite Hauth, Hsel.
  cbn [fst snd]. eexists. split; [reflexivity|].
  assert (Ha : forall hw,
            fst (verify w (mkVerifyRequest tok hw) db)
            = Raise (HTTPException 403 "Token expired") ->
            match e with
            | Some t => if truthy_float (Some t)
                        then Some (Z.max 0 (int (t - time_time w)%Q))
                        else None
            | None => None
            end = Some 0 /\ truthy_int rv = false).
  { intros hw Hv.
    apply (verify_expired_guard w (mkVerifyRequest tok hw) db e h rv Hsel) in Hv.
    destruct Hv as [Hrv Hg]. split; [|exact Hrv].
    apply expiry_check_spec in Hg. destruct Hg as [t [He [Hnz Hlt]]].
    subst e. apply truthy_float_spec in Hnz. rewrite Hnz.
    f_equal. apply past_no_seconds.
    revert Hlt. generalize (time_time w). intros now Hlt.
    destruct t as [tn td], now as [nn nd].
    unfold Qle, Qlt, Qminus, Qplus, Qopp in *. simpl in *. nia. }
  split; [exact Ha|]. split.
  - intros hw Hne Hv. apply Hne. apply (Ha hw Hv).
  - intros n Hn. destruct e as [t|]; [|discriminate].
    destruct (truthy_float (Some t)); [|discriminate].
    inversion Hn. lia.
Qed.

Lemma inspect_agrees_with_verify_witness :
  exists sr,
    fst (admin_verify demo_globals (demo_world 3000) (Some "s3cret") demo_token
           [mkRow demo_token (Some "A") (Some 2000%Q) 0])
    = Return (InspectResponse demo_token (Some "A") false (Some 2000%Q) sr)
    /\ sr = Some 0.
Proof.
  destruct (inspect_agrees_with_verify demo_globals (demo_world 3000)
              (Some "s3cret") demo_token
              [mkRow demo_token (Some "A") (Some 2000%Q) 0]
              (Some 2000%Q) (Some "A") 0 eq_refl eq_refl)
    as [sr [H1 [H2 _]]].
  exists sr. split; [exact H1|].
  exact (proj1 (H2 "A" eq_refl)).
Defined.

(** X11.  The [seconds_remaining] that [/admin/verify] reports for a token
    never goes up as the clock advances: of two reports on the same table,
    the later one is at most the earlier one, and neither is negative. *)
Theorem seconds_remaining_decreases (g : module_globals) (w w' : world)
    (k k' : option string) (tok : string) (db : table)
    (h h' : option string) (b b' : bool) (e e' : option Q) (n n' : Z) :
  fst (admin_verify g w k tok db)
    = Return (InspectResponse tok h b e (Some n)) ->
  fst (admin_verify g w' k' tok db)
    = Return (InspectResponse tok h' b' e' (Some n')) ->
  (time_time w <= time_time w')%Q ->
  0 <= n' <= n.
Proof.
  unfold admin_verify. intros H1 H2 Hle.
  destruct (require_admin g w k); [|discriminate].
  destruct (require_admin g w' k'); [|discriminate].
  destruct (select_row tok db) as [[[e0 h0] rv]|]; [|discriminate].
  cbn [fst] in H1, H2.
  destruct e0 as [t|]; [|discriminate].
  destruct (truthy_float (Some t)); [|discriminate].
  inversion H1. inversion H2. subst.
  split; [lia|]. apply seconds_monotone. exact Hle.
Qed.

Lemma seconds_remaining_decreases_witness : 0 <= 499 <= 1000.
Proof.
  apply (seconds_remaining_decreases demo_globals
           (demo_world 1000) (demo_world (3001 # 2))
           (Some "s3cret") (Some "s3cret") demo_token
           [mkRow demo_token (Some "A") (Some 2000%Q) 0]
           (Some "A") (Some "A") false false (Some 2000%Q) (Some 2000%Q)
           1000 499).
  - reflexivity.
  - reflexivity.
  - vm_compute. discriminate.
Defined.

(** ** The token string *)

Lemma hex_byte_round_trip (b : byte) :
  hex_value (upper_ascii (hex_digit (N.div (Byte.to_N b) 16)))
    = Some (N.div (Byte.to_N b) 16)
  /\ hex_value (upper_ascii (hex_digit (N.modulo (Byte.to_N b) 16)))
    = Some (N.modulo (Byte.to_N b) 16)
  /\ Byte.of_N (16 * N.div (Byte.to_N b) 16 + N.modulo (Byte.to_N b) 16)
    = Some b.
Proof. destruct b; vm_compute; repeat split. Qed.

Lemma unhexlify_upper_hexlify (bs : list byte) :
  unhexlify (upper (hexlify bs)) = Some bs.
Proof.
  induction bs as [|b bs IH]; [reflexivity|].
  destruct (hex_byte_round_trip b) as [Hhi [Hlo Hb]].
  cbn [hexlify upper str_map unhexlify].
  rewrite Hhi, Hlo. unfold upper in IH. rewrite IH, Hb. reflexivity.
Qed.

(** X12.  The token string loses nothing of the random bytes it is made of:
    it is ["OLLY-"] followed by digits from which the drawn bytes are read
    back, so two [/generate] calls return the same token only when the
    entropy source gave them the same bytes. *)
Theorem token_keeps_entropy (w : world) :
  (exists hex, new_token w = "OLLY-" ++ hex
               /\ unhexlify hex = Some (secrets_token_bytes w 12))
  /\ (forall w', new_token w = new_token w' ->
        secrets_token_bytes w 12 = secrets_token_bytes w' 12).
Proof.
  split.
  - exists (upper (hexlify (secrets_token_bytes w 12))).
    split; [reflexivity | apply unhexlify_upper_hexlify].
  - intros w' H. unfold new_token in H. simpl in H.
    inversion H as [H1]. clear H.
    assert (H2 : unhexlify (upper (hexlify (secrets_token_bytes w 12)))
                 = unhexlify (upper (hexlify (secrets_token_bytes w' 12))))
      by (rewrite H1; reflexivity).
    rewrite !unhexlify_upper_hexlify in H2. inversion H2. reflexivity.
Qed.

(** ** Start-up and the tables the service builds *)

Lemma run_app (g : module_globals) (evs1 evs2 : list (world * request))
    (db : table) :
  run g (evs1 ++ evs2) db = run g evs2 (run g evs1 db).
Proof.
  revert db. induction evs1 as [|[w rq] evs1 IH]; intros db; simpl.
  - reflexivity.
  - apply IH.
Qed.

(** X13.  Stopping the service and starting it again loses nothing: serving
    one batch of requests, shutting down, and serving a second batch on the
    file that was left gives the same database as serving both batches in
    one go, because [init_db] creates the table only when it is missing.
    Started on a file without the table and serving nothing, the service
    leaves an empty table. *)
Theorem restart_keeps_tokens (g : module_globals) (d : database)
    (evs1 evs2 : list (world * request)) :
  lifespan g (lifespan g d evs1) evs2 = lifespan g d (evs1 ++ evs2)
  /\ init_db (lifespan g d evs1) = run g evs1 (init_db d)
  /\ lifespan g None [] = Some [].
Proof.
  unfold lifespan. simpl. rewrite run_app. repeat split.
Qed.

Lemma issued_new_token (w : world) (d : option Z) :
  (0 <= time_time w)%Q ->
  List.length (secrets_token_bytes w 12) = 12%nat ->
  (d = None \/ exists z, d = Some z /\ 0 < z) ->
  issued_row (mkRow (new_token w) None (expiry_of (time_time w) d) 0).
Proof.
  intros Hnow Hlen Hd. unfold issued_row. simpl. split.
  { exists (upper (hexlify (secrets_token_bytes w 12))).
    split; [reflexivity|]. split.
    - rewrite upper_hexlify_length, Hlen. reflexivity.
    - apply upper_hexlify_chars. }
  split; [left; reflexivity|].
  intros t Ht. destruct Hd as [Hd|[z [Hd Hz]]]; subst d; [discriminate|].
  exact (expiry_of_after_epoch _ _ _ Hnow Hz Ht).
Qed.

Lemma handle_issued (g : module_globals) (w : world) (rq : request)
    (db : table) :
  (0 <= time_time w)%Q ->
  List.length (secrets_token_bytes w 12) = 12%nat ->
  Forall issued_row db -> Forall issued_row (snd (handle g w rq db)).
Proof.
  intros Hnow Hlen Hall.
  assert (Hh : forall v tok, Forall issued_row (update_hwid v tok db)).
  { intros v tok. unfold update_hwid. apply Forall_map.
    apply (Forall_impl _ (P := issued_row)); [|exact Hall].
    intros r Hr. destruct (String.eqb (token r) tok); exact Hr. }
  assert (Hr : forall tok, Forall issued_row (update_revoked tok db)).
  { intros tok. unfold update_revoked. apply Forall_map.
    apply (Forall_impl _ (P := issued_row)); [|exact Hall].
    intros r [H1 [H2 H3]]. destruct (String.eqb (token r) tok);
      [|exact (conj H1 (conj H2 H3))].
    split; [exact H1|]. split; [right; reflexivity | exact H3]. }
  destruct rq as [data|data|k tok|k tok|k tok]; simpl.
  - unfold verify.
    destruct (select_row (vr_token data) db) as [[[e h] rv]|]; [|exact Hall].
    destruct (truthy_int rv); [exact Hall|].
    destruct (expiry_check (time_time w) e); [exact Hall|].
    destruct h as [h|].
    + destruct (negb (String.eqb h (vr_hwid data))); exact Hall.
    + simpl. apply Hh.
  - rewrite generate_unfold.
    destruct (dict_get PLAN_DURATIONS (lower (gr_plan data))) as [du|] eqn:Hd;
      [|exact Hall].
    unfold insert_token. destruct (existsb _ db); [exact Hall|].
    simpl. apply Forall_app. split; [exact Hall|].
    constructor; [|constructor].
    apply (issued_new_token w du Hnow Hlen).
    destruct du as [z|]; [right|left; reflexivity].
    exists z. split; [reflexivity|]. apply (plan_duration_positive _ _ Hd).
  - unfold admin_verify. destruct (require_admin g w k); [|exact Hall].
    destruct (select_row tok db) as [[[e h] rv]|]; exact Hall.
  - unfold admin_unbind. destruct (require_admin g w k); [|exact Hall].
    simpl. apply Hh.
  - unfold admin_revoke. destruct (require_admin g w k); [|exact Hall].
    simpl. apply Hr.
Qed.

Lemma run_issued (g : module_globals) (evs : list (world * request))
    (db : table) :
  ordinary evs -> Forall issued_row db -> Forall issued_row (run g evs db).
Proof.
  revert db. induction evs as [|[w rq] evs IH]; intros db Hev Hall; simpl.
  - exact Hall.
  - inversion Hev as [|ev evs' [Hnow Hlen] Hevs]; subst. simpl in *.
    apply IH; [exact Hevs|]. apply handle_issued; assumption.
Qed.

(** X14.  Whatever requests the service has served since it was started on
    an empty file (with a clock after the epoch and 12 bytes of entropy per
    draw), every stored row has a token of the form ["OLLY-"] plus 24 digits
    of [0-9A-F], a [revoked] column that is 0 or 1, and an expiry that is
    null or a time after the epoch; and no two rows share a token. *)
Theorem fresh_start_rows_issued (g : module_globals)
    (evs : list (world * request)) :
  ordinary evs ->
  Forall issued_row (run g evs (init_db None))
  /\ primary_key (run g evs (init_db None))
  /\ lifespan g None evs = Some (run g evs (init_db None)).
Proof.
  intros Hev. split; [|split; [|reflexivity]].
  - apply run_issued; [exact Hev | constructor].
  - apply run_primary_key. constructor.
Qed.

Lemma demo_requests_ordinary : ordinary demo_requests.
Proof.
  unfold ordinary, demo_requests.
  repeat (constructor; [split; [vm_compute; discriminate | reflexivity]|]).
  constructor.
Defined.

Lemma fresh_start_rows_issued_witness :
  Forall issued_row (run demo_globals demo_requests (init_db None)).
Proof.
  exact (proj1 (fresh_start_rows_issued demo_globals demo_requests
                  demo_requests_ordinary)).
Defined.

(** X15.  On every table the service has built since it was started on an
    empty file (clock after the epoch), [/verify] of a stored, unrevoked
    token raises 403 "Token expired" exactly when the token's [expires_at]
    is set and strictly before the clock reading of the call. *)
Theorem fresh_start_expiry_exact (g : module_globals)
    (evs : list (world * request)) (w : world) (data : VerifyRequest) e h rv :
  ordinary evs ->
  select_row (vr_token data) (run g evs (init_db None)) = Some (e, h, rv) ->
  truthy_int rv = false ->
  (fst (verify w data (run g evs (init_db None)))
     = Raise (HTTPException 403 "Token expired")
   <-> exists t, e = Some t /\ (t < time_time w)%Q).
Proof.
  intros Hev Hsel Hrv.
  rewrite (verify_expired_guard w data _ e h rv Hsel), expiry_check_spec.
  assert (Hpos : forall t, e = Some t -> (0 < t)%Q).
  { destruct (select_row_nth _ _ _ _ _ Hsel) as [i [r [Hn [_ [He _]]]]].
    pose proof (run_issued g evs (init_db None) Hev (Forall_nil _)) as Hall.
    rewrite Forall_forall in Hall.
    destruct (Hall r (nth_error_In _ _ Hn)) as [_ [_ H3]].
    intros t Ht. apply H3. congruence. }
  split.
  - intros [_ [t [He [_ Hlt]]]]. exists t. auto.
  - intros [t [He Hlt]]. split; [exact Hrv|]. exists t.
    split; [exact He|]. split; [|exact Hlt].
    intros Hz. specialize (Hpos t He). rewrite Hz in Hpos.
    exact (Qlt_irrefl 0 Hpos).
Qed.

Lemma fresh_start_expiry_exact_witness :
  fst (verify (demo_world 100000)
         (mkVerifyRequest "OLLY-000000000000000000000000" "A")
         (run demo_globals demo_requests (init_db None)))
  = Raise (HTTPException 403 "Token expired").
Proof.
  apply (proj2 (fresh_start_expiry_exact demo_globals demo_requests
                  (demo_world 100000)
                  (mkVerifyRequest "OLLY-000000000000000000000000" "A")
                  (Some (1000 + inject_Z 86400)%Q) None 0
                  demo_requests_ordinary eq_refl eq_refl)).
  exists (1000 + inject_Z 86400)%Q. split; [reflexivity|].
  vm_compute. reflexivity.
Defined.

(** ** The admin guard with a configured key *)

(** X16.  With [ADMIN_KEY] set in the environment, the three admin routes
    are closed to every request that does not present exactly that value:
    such a request, header missing or different, is answered 401
    "Unauthorized" and the table is left as it was; a request presenting the
    value gets past the guard. *)
Theorem admin_key_required (g : module_globals) (w : world) (s : string)
    (k : option string) (tok : string) (db : table) :
  os_environ w "ADMIN_KEY" = Some s ->
  (k <> Some s ->
     admin_verify g w k tok db = (Raise (HTTPException 401 "Unauthorized"), db)
     /\ admin_unbind g w k tok db = (Raise (HTTPException 401 "Unauthorized"), db)
     /\ admin_revoke g w k tok db = (Raise (HTTPException 401 "Unauthorized"), db))
  /\ (k = Some s ->
     fst (admin_verify g w k tok db) <> Raise (HTTPException 401 "Unauthorized")
     /\ admin_unbind g w k tok db
        = (Return (StatusResponse "ok"), update_hwid None tok db)
     /\ admin_revoke g w k tok db
        = (Return (StatusResponse "revoked"), update_revoked tok db)).
Proof.
  intros Henv. split.
  - intros Hne.
    assert (Hr : require_admin g w k = Raise (HTTPException 401 "Unauthorized")).
    { destruct (require_admin_cases g w k) as [H|H]; [|exact H].
      apply require_admin_spec in H. congruence. }
    unfold admin_verify, admin_unbind, admin_revoke. rewrite Hr. auto.
  - intros Hk.
    assert (Hr : require_admin g w k = Return tt).
    { apply require_admin_spec. congruence. }
    unfold admin_verify, admin_unbind, admin_revoke. rewrite Hr.
    split; [|auto].
    destruct (select_row tok db) as [[[e h] rv]|]; simpl; discriminate.
Qed.

Lemma admin_key_required_witness :
  admin_revoke demo_globals (demo_world 1000) None demo_token
    [mkRow demo_token None None 0]
  = (Raise (HTTPException 401 "Unauthorized"), [mkRow demo_token None None 0]).
Proof.
  refine (proj2 (proj2 (proj1 (admin_key_required demo_globals
            (demo_world 1000) "s3cret" None demo_token
            [mkRow demo_token None None 0] eq_refl) _))).
  discriminate.
Defined.

(** ** The plan of a generated token *)

Lemma lower_ascii_idem (c : ascii) : lower_ascii (lower_ascii c) = lower_ascii c.
Proof.
  destruct c as [[] [] [] [] [] [] [] []]; vm_compute; reflexivity.
Qed.

Lemma lower_idem (s : string) : lower (lower s) = lower s.
Proof.
  unfold lower. induction s as [|c s IH]; simpl; [reflexivity|].
  rewrite lower_ascii_idem, IH. reflexivity.
Qed.

Lemma plan_without_duration (k : string) (du : option Z) :
  dict_get PLAN_DURATIONS k = Some du -> (du = None <-> k = "infinite").
Proof.
  unfold PLAN_DURATIONS. cbn [dict_get].
  repeat (destruct (String.eqb _ k) eqn:E;
          [apply String.eqb_eq in E; subst k; intros H; inversion H;
           split; intros ?; first [discriminate | reflexivity]
          |clear E]).
  discriminate.
Qed.

Lemma dict_get_key {V} (d : dict V) (k : string) (v : V) :
  dict_get d k = Some v -> In k (dict_keys d).
Proof.
  unfold dict_keys. induction d as [|[k' v'] d IH]; simpl; [discriminate|].
  destruct (String.eqb k' k) eqn:E.
  - apply String.eqb_eq in E. auto.
  - intros H. right. exact (IH H).
Qed.

(** X18.  What a successful [/generate] answers: the plan of the response is
    one of the keys of the plan table, spelled in lower case (sending it
    back gives the same plan); the expiry is null exactly for the plan
    ["infinite"], and otherwise lies strictly after the clock reading of the
    call, by the duration the table gives for the plan. *)
Theorem generate_response_plan (w : world) (data : GenerateRequest)
    (db db' : table) (tok plan : string) (e : option Q) :
  generate w data db = (Return (GenerateResponse tok plan e), db') ->
  In plan (dict_keys PLAN_DURATIONS)
  /\ lower plan = plan
  /\ (e = None <-> plan = "infinite")
  /\ (forall t, e = Some t ->
        (time_time w < t)%Q
        /\ exists d, dict_get PLAN_DURATIONS plan = Some (Some d)
                     /\ t = (time_time w + inject_Z d)%Q).
Proof.
  rewrite generate_unfold.
  destruct (dict_get PLAN_DURATIONS (lower (gr_plan data))) as [du|] eqn:Hd;
    [|discriminate].
  destruct (insert_token _ _ db) as [db1|]; [|discriminate].
  intros H. inversion H. subst tok plan e db'. clear H.
  split; [exact (dict_get_key _ _ _ Hd)|].
  split; [apply lower_idem|].
  split.
  - rewrite <- (plan_without_duration _ _ Hd).
    destruct du; simpl; split; intros H; try discriminate; reflexivity.
  - intros t Ht. destruct du as [d|]; [|discriminate].
    inversion Ht. subst t. split.
    + pose proof (plan_duration_positive _ _ Hd) as Hpos.
      destruct (time_time w) as [n dn].
      unfold Qlt, Qplus. simpl. nia.
    + exists d. split; [exact Hd | reflexivity].
Qed.

Lemma generate_response_plan_witness :
  In "1w" (dict_keys PLAN_DURATIONS) /\ lower "1w" = "1w".
Proof.
  destruct (generate_response_plan (demo_world 1000) (mkGenerateRequest "1W")
              [] [mkRow "OLLY-000000000000000000000000" None
                    (Some (1000 + inject_Z 604800)%Q) 0]
              "OLLY-000000000000000000000000" "1w"
              (Some (1000 + inject_Z 604800)%Q) eq_refl) as [H1 [H2 _]].
  split; assumption.
Defined.

(** ** Reading back through [/admin/verify] what the other routes wrote *)

Lemma admin_verify_reports (g : module_globals) (w : world)
    (k : option string) (tok : string) (db : table) e h rv :
  require_admin g w k = Return tt ->
  select_row tok db = Some (e, h, rv) ->
  exists sr, fst (admin_verify g w k tok db)
             = Return (InspectResponse tok h (truthy_int rv) e sr).
Proof.
  intros Hauth Hsel. unfold admin_verify. rewrite Hauth, Hsel.
  cbn [fst]. eexists. reflexivity.
Qed.

(** X19.  [/admin/verify] shows what the other routes did to a stored token:
    after an authenticated [/admin/revoke] it reports [revoked] true, after
    an authenticated [/admin/unbind] it reports a null hwid, and after a
    [/verify] that succeeded it reports the hwid of that call and [revoked]
    false; in each case with the token's hwid or flag otherwise as before
    and its [expires_at] unchanged. *)
Theorem inspect_reflects_writes (g : module_globals) (w : world)
    (k : option string) (tok : string) (db : table) e h rv :
  require_admin g w k = Return tt ->
  select_row tok db = Some (e, h, rv) ->
  (forall w0 k0, require_admin g w0 k0 = Return tt ->
     exists sr,
       fst (admin_verify g w k tok (snd (admin_revoke g w0 k0 tok db)))
       = Return (InspectResponse tok h true e sr))
  /\ (forall w0 k0, require_admin g w0 k0 = Return tt ->
     exists sr,
       fst (admin_verify g w k tok (snd (admin_unbind g w0 k0 tok db)))
       = Return (InspectResponse tok None (truthy_int rv) e sr))
  /\ (forall w0 hw r0,
     fst (verify w0 (mkVerifyRequest tok hw) db) = Return r0 ->
     exists sr,
       fst (admin_verify g w k tok (snd (verify w0 (mkVerifyRequest tok hw) db)))
       = Return (InspectResponse tok (Some hw) false e sr)).
Proof.
  intros Hauth Hsel. split; [|split].
  - intros w0 k0 H0. unfold admin_revoke. rewrite H0. simpl.
    apply (admin_verify_reports g w k tok _ e h 1 Hauth).
    apply select_row_update_revoked with (rv := rv). exact Hsel.
  - intros w0 k0 H0. unfold admin_unbind. rewrite H0. simpl.
    apply (admin_verify_reports g w k tok _ e None rv Hauth).
    apply select_row_update_hwid with (h := h). exact Hsel.
  - intros w0 hw r0. unfold verify. simpl. rewrite Hsel.
    destruct (truthy_int rv) eqn:Hrv; [discriminate|].
    destruct (expiry_check (time_time w0) e); [discriminate|].
    destruct h as [h|].
    + destruct (String.eqb h hw) eqn:Hh; simpl; [|discriminate].
      apply String.eqb_eq in Hh. subst h. intros _.
      rewrite <- Hrv.
      apply (admin_verify_reports g w k tok db e (Some hw) rv Hauth Hsel).
    + simpl. intros _. rewrite <- Hrv.
      apply (admin_verify_reports g w k tok _ e (Some hw) rv Hauth).
      apply select_row_update_hwid with (h := None). exact Hsel.
Qed.

Lemma inspect_reflects_writes_witness :
  exists sr,
    fst (admin_verify demo_globals (demo_world 1500) (Some "s3cret") demo_token
           (snd (admin_revoke demo_globals (demo_world 1000) (Some "s3cret")
                   demo_token [mkRow demo_token (Some "A") None 0])))
    = Return (InspectResponse demo_token (Some "A") true None sr).
Proof.
  exact (proj1 (inspect_reflects_writes demo_globals (demo_world 1500)
                  (Some "s3cret") demo_token
                  [mkRow demo_token (Some "A") None 0] None (Some "A") 0
                  eq_refl eq_refl)
           (demo_world 1000) (Some "s3cret") eq_refl).
Defined.

(** ** Verify: expiry on the tables the service builds *)

(** C6.  On every table the service has built since it was started on an
    empty file, with a clock that reads a time after the epoch, a [/verify]
    of a stored token that is not revoked raises 403 "Token expired" exactly
    when the token's [expires_at] is not null and strictly before the clock
    reading of the call; in particular a token whose [expires_at] is null
    never gets that error. *)
Theorem verify_expired_when_past (g : module_globals)
    (evs : list (world * request)) (w : world) (data : VerifyRequest)
    (e : option Q) (h : option string) (rv : Z) :
  after_epoch evs ->
  select_row (vr_token data) (run g evs (init_db None)) = Some (e, h, rv) ->
  truthy_int rv = false ->
  (fst (verify w data (run g evs (init_db None)))
     = Raise (HTTPException 403 "Token expired")
   <-> exists t, e = Some t /\ (t < time_time w)%Q)
  /\ (e = None ->
      fst (verify w data (run g evs (init_db None)))
      <> Raise (HTTPException 403 "Token expired")).
Proof.
  intros Hev Hsel Hrv.
  assert (Hpos : forall t, e = Some t -> (0 < t)%Q).
  { destruct (select_row_nth _ _ _ _ _ Hsel) as [i [r [Hn [_ [He _]]]]].
    assert (Hst : stamped (run g evs (init_db None))).
    { apply run_stamped; [exact Hev|]. intros r0 t0 []. }
    intros t Ht. apply (Hst r t); [|congruence].
    eapply nth_error_In. exact Hn. }
  assert (Hiff : fst (verify w data (run g evs (init_db None)))
                   = Raise (HTTPException 403 "Token expired")
                 <-> exists t, e = Some t /\ (t < time_time w)%Q).
  { rewrite (verify_expired_guard w data _ e h rv Hsel), expiry_check_spec.
    split.
    - intros [_ [t [He [_ Hlt]]]]. exists t. auto.
    - intros [t [He Hlt]]. split; [exact Hrv|]. exists t.
      split; [exact He|]. split; [|exact Hlt].
      intros Hz. specialize (Hpos t He). rewrite Hz in Hpos.
      exact (Qlt_irrefl 0 Hpos). }
  split; [exact Hiff|].
  intros He Hv. apply Hiff in Hv. destruct Hv as [t [Ht _]]. congruence.
Qed.

Lemma verify_expired_when_past_witness :
  fst (verify (demo_world 300000)
         (mkVerifyRequest "OLLY-000000000000000000000000" "A")
         (run demo_globals
            [(demo_world 1000, PostGenerate (mkGenerateRequest "3D"))]
            (init_db None)))
  = Raise (HTTPException 403 "Token expired").
Proof.
  apply (proj2 (proj1 (verify_expired_when_past demo_globals
                  [(demo_world 1000, PostGenerate (mkGenerateRequest "3D"))]
                  (demo_world 300000)
                  (mkVerifyRequest "OLLY-000000000000000000000000" "A")
                  (Some (1000 + inject_Z 259200)%Q) None 0
                  ltac:(unfold after_epoch;
                        constructor; [vm_compute; discriminate | constructor])
                  eq_refl eq_refl))).
  exists (1000 + inject_Z 259200)%Q. split; [reflexivity|].
  vm_compute. reflexivity.
Defined.
